(** * Publication-tracking bot: a shallow embedding of [main.py]

    The development follows the source file top to bottom: the string
    primitives of Python the code relies on, the page extractor
    [scrape_page], the classifier [filter_vigente], the message formatter
    [format_single_publication], the subscriber registry, the drive-link
    rewriting [convert_drive_url] and the polling cycle
    [check_for_new_publications].  Theorems come after all definitions. *)

From Stdlib Require Import Ascii.
From stdpp Require Import base option list strings gmap pretty.

Local Open Scope string_scope.
Local Open Scope list_scope.
Local Open Scope Z_scope.

(** ** Python string primitives *)

Module PyStr.

(** [sub in s] on two [str] values: [sub] occurs in [s] as a substring. *)
Fixpoint str_in (sub s : string) : bool :=
  String.prefix sub s ||
  match s with
  | EmptyString => false
  | String _ s' => str_in sub s'
  end.

(** [s.startswith(p)]. *)
Definition startswith (s p : string) : bool := String.prefix p s.

(** [s.split(sep)] for a one-character separator. *)
Fixpoint split (sep : Ascii.ascii) (s : string) : list string :=
  match s with
  | EmptyString => [EmptyString]
  | String c s' =>
      if Ascii.eqb c sep then EmptyString :: split sep s'
      else match split sep s' with
           | w :: ws => String c w :: ws
           | [] => [String c EmptyString]
           end
  end.

(** Number of occurrences of a character. *)
Fixpoint count (sep : Ascii.ascii) (s : string) : nat :=
  match s with
  | EmptyString => 0%nat
  | String c s' => ((if Ascii.eqb c sep then 1 else 0) + count sep s')%nat
  end.

(** Truth value of a [str]: the empty string is falsy. *)
Definition truthy (s : string) : bool :=
  match s with EmptyString => false | _ => true end.

End PyStr.

(** ** Data model *)

(** A [<td>] cell as the extractor reads it: [ele.text] and the [href] of
    the first anchor carrying one ([find('a', href=True)]). *)
Record td := mk_td { td_text : string; td_href : option string }.

(** A [<tr>]: the result of [row.find_all('td')]. *)
Abbreviation tr := (list td).

(** What [soup.find('table', id=...)] followed by [table.find('tbody')]
    and [tbody.find_all('tr')] give on a parsed page. *)
Inductive page :=
| PageNoTable
| PageNoTbody
| PageRows (rows : list tr).

(** Outcome of the HTTP GET of [scrape_page]: an exception inside the
    [try], or the parsed body. *)
Inductive http_result :=
| FetchException
| Fetched (soup : page).

(** One element of [data]: [cols_text] with the document link appended. *)
Abbreviation row := (list string).

(** A value of [data_cache]. *)
Record cache_entry := mk_cache_entry {
  ce_row : row;
  ce_pdf_url : string;
  ce_description : string;
  ce_published_date : string;
  ce_expires_date : string;
  ce_status : string
}.

(** The three module-level globals. *)
Record state := mk_state {
  subscribers : gset Z;
  previous_publications : gset string;
  data_cache : gmap string cache_entry
}.

Definition set_data_cache (st : state) (c : gmap string cache_entry) : state :=
  mk_state (subscribers st) (previous_publications st) c.

Definition set_previous_publications (st : state) (p : gset string) : state :=
  mk_state (subscribers st) p (data_cache st).

Definition set_subscribers (st : state) (s : gset Z) : state :=
  mk_state s (previous_publications st) (data_cache st).

(** The start-up values of the globals. *)
Definition initial_state : state := mk_state ∅ ∅ ∅.

(** Calls of [logger.error]; the exception text of the f-strings is left
    out. *)
Inductive log_entry :=
| LogFetchError
| LogNoTable
| LogNoTbody
| LogSendError (user_id : Z).

(** How a call that sends or stores on its way ends: it returns, or an
    exception leaves it; what it stored and sent before stays. *)
Inductive ending := Returned | Raised.

#[global] Instance ending_eq_dec : EqDecision ending.
Proof. solve_decision. Defined.

Definition url : string := "https://sistemas.undc.edu.pe/bienesyservicios/".

Definition no_disponible : string := "No disponible".

(** ** Extraction: [scrape_page] *)

Section Scrape.

(** [str.strip] and [urllib.parse.urljoin] are library functions; the
    extractor is stated for any behaviour of them.  [urljoin] raises
    [ValueError] on some texts, a reference with an unmatched bracket in
    its host for one: that is its [None]. *)
Variable strip : string → string.
Variable urljoin : string → string → option string.

Definition cell_text (c : td) : string := strip (td_text c).

(** Lines 89-95: the document link of a row, from its third cell; [None]
    is the exception of [urljoin]. *)
Definition pdf_link_of (c2 : td) : option string :=
  match td_href c2 with
  | Some href =>
      if PyStr.startswith href "http" then Some href else urljoin url href
  | None => Some no_disponible
  end.

(** The body of the [for row in rows] loop, on the pair
    ([data], [data_cache]); [None] is the exception of [urljoin], raised
    before the row stores anything. *)
Definition scrape_row (acc : list row * gmap string cache_entry) (cols : tr)
  : option (list row * gmap string cache_entry) :=
  match cols with
  | c0 :: c1 :: c2 :: c3 :: c4 :: c5 :: _ =>
      pdf_link ← pdf_link_of c2;
      let cols_text := (cell_text <$> cols) ++ [pdf_link] in
      Some (acc.1 ++ [cols_text],
            <[cell_text c0 :=
                mk_cache_entry cols_text pdf_link (cell_text c1)
                               (cell_text c3) (cell_text c4) (cell_text c5)]>
              acc.2)
  | _ => Some acc
  end.

(** The loop: the [data] it ends with, [None] when a row raised, and the
    cache, which then holds what the rows before that one stored. *)
Fixpoint scrape_rows_from (acc : list row * gmap string cache_entry)
    (rows : list tr) : option (list row) * gmap string cache_entry :=
  match rows with
  | [] => (Some acc.1, acc.2)
  | cols :: rest =>
      match scrape_row acc cols with
      | Some acc' => scrape_rows_from acc' rest
      | None => (None, acc.2)
      end
  end.

Definition scrape_rows (rows : list tr)
  : option (list row) * gmap string cache_entry :=
  scrape_rows_from ([], ∅) rows.

(** [scrape_page]: the new globals, the returned [data] ([None] when an
    exception left the function instead) and what was logged. *)
Definition scrape_page (st : state) (resp : http_result)
  : state * option (list row) * list log_entry :=
  let st0 := set_data_cache st ∅ in
  match resp with
  | FetchException => (st0, Some [], [LogFetchError])
  | Fetched PageNoTable => (st0, Some [], [LogNoTable])
  | Fetched PageNoTbody => (st0, Some [], [LogNoTbody])
  | Fetched (PageRows rows) =>
      let r := scrape_rows rows in
      (set_data_cache st0 r.2, r.1, [])
  end.

End Scrape.

(** ** Classification: [filter_vigente] *)

(** The condition of the comprehension, ["Vigente" in row[5]]; [None] is the
    [IndexError] of a row that has no index 5. *)
Definition is_vigente (r : row) : option bool :=
  PyStr.str_in "Vigente" <$> r !! 5%nat.

Fixpoint filter_vigente (data : list row) : option (list row) :=
  match data with
  | [] => Some []
  | r :: rest =>
      b ← is_vigente r;
      out ← filter_vigente rest;
      Some (if b : bool then r :: out else out)
  end.

(** ** Dates: the part of [datetime] the formatter uses *)

Module PyTime.

(** A naive [datetime] (no zone, like the value of [datetime.now()]), as
    its number of microseconds since the start of the calendar. *)
Definition datetime := Z.

(** A [timedelta] in its normal form: [0 <= seconds < 86400] and
    [0 <= microseconds < 1000000]; only [days] may be negative. *)
Record timedelta := mk_timedelta {
  days : Z;
  seconds : Z;
  microseconds : Z
}.

Definition us_per_second : Z := 1000000.
Definition us_per_day : Z := 86400 * us_per_second.

(** Normalisation, as the [timedelta] constructor does it. *)
Definition of_microseconds (us : Z) : timedelta :=
  mk_timedelta (us / us_per_day)
               ((us mod us_per_day) / us_per_second)
               (us mod us_per_second).

(** [a - b] on two naive datetimes. *)
Definition sub (a b : datetime) : timedelta := of_microseconds (a - b).

Definition to_microseconds (d : timedelta) : Z :=
  (days d * 86400 + seconds d) * us_per_second + microseconds d.

(** [d.total_seconds() < 0]: the float is the exact microsecond count
    divided by 10^6, so its sign is that of the count. *)
Definition total_seconds_negative (d : timedelta) : bool :=
  to_microseconds d <? 0.

(** [timedelta(0)]. *)
Definition zero : timedelta := mk_timedelta 0 0 0.

(** A [datetime] as a parser hands it out: naive, or aware of a time zone
    when the text names one; [local] is its wall-clock reading. *)
Inductive parsed :=
| Naive (d : datetime)
| Aware (local : datetime).

(** [e - now] for the naive [now] of [datetime.now()]: subtracting a naive
    datetime from an aware one raises [TypeError], the [None]. *)
Definition sub_now (e : parsed) (now : datetime) : option timedelta :=
  match e with
  | Naive d => Some (sub d now)
  | Aware _ => None
  end.

End PyTime.

(** ** Formatting: [format_single_publication] *)

Record button := mk_button { btn_text : string; btn_callback_data : string }.

(** The line feed of the f-strings. *)
Definition LF : string := String (Ascii.ascii_of_nat 10) EmptyString.

Section Format.

(** [dateparser.parse(text, settings={'DATE_ORDER': 'DMY'})]: a library
    function; [None] when the text does not parse. *)
Variable dateparser_parse : string → option PyTime.parsed.

(** Lines 124-133, given the reading [now] of [datetime.now()]; [None] is
    the [TypeError] of line 125 on an aware expiry. *)
Definition available_time (now : PyTime.datetime)
    (expires_date : option PyTime.parsed) : option string :=
  match expires_date with
  | Some e =>
      delta ← PyTime.sub_now e now;
      let delta :=
        if PyTime.total_seconds_negative delta then PyTime.zero else delta in
      let days := PyTime.days delta in
      let hours := PyTime.seconds delta / 3600 in
      let remainder := PyTime.seconds delta mod 3600 in
      let minutes := remainder / 60 in
      Some (pretty days +:+ " días, " +:+ pretty hours +:+ " horas, "
              +:+ pretty minutes +:+ " minutos")
  | None => Some "Desconocido"
  end.

(** [None] is an exception: the [IndexError] of a row shorter than seven
    fields, or the [TypeError] of an aware expiry. *)
Definition format_single_publication (now : PyTime.datetime) (r : row)
  : option (string * list (list button)) :=
  r6 ← r !! 6%nat;
  let pdf_url :=
    if bool_decide (r6 ≠ no_disponible) then r6 else no_disponible in
  r3 ← r !! 3%nat;
  let published_date := dateparser_parse r3 in
  r4 ← r !! 4%nat;
  let expires_date := dateparser_parse r4 in
  available ← available_time now expires_date;
  r0 ← r !! 0%nat;
  r1 ← r !! 1%nat;
  let message :=
    "📢 <b>Publicación #" +:+ r0 +:+ "</b>" +:+ LF
    +:+ "📝 <b>Descripción:</b>" +:+ LF +:+ r1 +:+ LF +:+ LF in
  let message :=
    if bool_decide (pdf_url ≠ no_disponible)
    then message +:+ "📄 <b>PDF:</b> Disponible para descargar" +:+ LF
    else message +:+ "📄 <b>PDF:</b> No disponible" +:+ LF in
  r5 ← r !! 5%nat;
  let message :=
    message
    +:+ "📅 <b>Publicado:</b> " +:+ r3 +:+ LF
    +:+ "⏳ <b>Vence:</b> " +:+ r4 +:+ LF
    +:+ "⏱ <b>Tiempo disponible:</b> " +:+ available +:+ LF
    +:+ "🗑 <b>Estado:</b> " +:+ r5 +:+ LF in
  let buttons :=
    (if bool_decide (pdf_url ≠ no_disponible)
     then [mk_button "PDF Original" ("download_" +:+ r0)] else [])
    ++ [mk_button "PDF de la Publicación" ("sharepdf_" +:+ r0)]
    ++ [mk_button "Agregar al Calendario" ("calendar_" +:+ r0)] in
  Some (message, [buttons]).

End Format.

(** ** Subscriber registry: the [subscribe] and [unsubscribe] handlers *)

(** [subscribers.add(user_id)], then the reply. *)
Definition subscribe (st : state) (user_id : Z) : state * string :=
  (set_subscribers st ({[user_id]} ∪ subscribers st),
   "Te has suscrito a las notificaciones de nuevas publicaciones.").

(** [subscribers.discard(user_id)], then the reply. *)
Definition unsubscribe (st : state) (user_id : Z) : state * string :=
  (set_subscribers st (subscribers st ∖ {[user_id]}),
   "Te has dado de baja de las notificaciones.").

(** ** Drive links: [convert_drive_url] *)

(** The fields of [urllib.parse.ParseResult]. *)
Record ParseResult := mk_ParseResult {
  scheme : string;
  netloc : string;
  path : string;
  params : string;
  query : string;
  fragment : string
}.

Section Drive.

(** [urllib.parse.urlparse] and [urllib.parse.parse_qs] are library
    functions.  [urlparse] raises [ValueError] on some texts, a host with
    an unmatched bracket for one: that is its [None].  [parse_qs] gives a
    [dict] from names to lists of values. *)
Variable urlparse : string → option ParseResult.
Variable parse_qs : string → gmap string (list string).

(** Lines 314-321: the value bound to [file_id] ([None] of Python is the
    inner [None]); the outer [None] is an [IndexError]. *)
Definition drive_file_id (parsed_url : ParseResult) : option (option string) :=
  if PyStr.str_in "/file/d/" (path parsed_url) then
    Some <$> PyStr.split "/"%char (path parsed_url) !! 3%nat
  else if PyStr.str_in "/open" (path parsed_url) then
    match parse_qs (query parsed_url) !! "id" with
    | Some values => Some <$> values !! 0%nat
    | None => Some None
    end
  else Some None.

Definition download_url (file_id : string) : string :=
  "https://drive.google.com/uc?export=download&id=" +:+ file_id.

(** [None] is an exception leaving the function. *)
Definition convert_drive_url (u : string) : option string :=
  parsed_url ← urlparse u;
  if PyStr.str_in "drive.google.com" (netloc parsed_url) then
    file_id ← drive_file_id parsed_url;
    match file_id with
    | Some fid => if PyStr.truthy fid then Some (download_url fid) else Some u
    | None => Some u
    end
  else Some u.

End Drive.

(** [urlparse] as the library computes it ([urlsplit] and the splitting
    of the parameters), on texts taken as byte strings.  Two validations of
    the library are left as a parameter: they are consulted for a host that
    holds both brackets or a byte outside ASCII, and nowhere else. *)
Module UrlModel.

(** [s] up to the first character satisfying [p], and the rest from that
    character on. *)
Fixpoint break (p : Ascii.ascii → bool) (s : string) : string * string :=
  match s with
  | EmptyString => (EmptyString, EmptyString)
  | String c s' =>
      if p c then (EmptyString, s)
      else let r := break p s' in (String c r.1, r.2)
  end.

Definition tail (s : string) : string :=
  match s with EmptyString => EmptyString | String _ s' => s' end.

Definition is_char (c : Ascii.ascii) (x : Ascii.ascii) : bool := Ascii.eqb x c.

Definition is_alpha (c : Ascii.ascii) : bool :=
  let n := Ascii.nat_of_ascii c in
  ((65 <=? n) && (n <=? 90) || (97 <=? n) && (n <=? 122))%nat.

Definition is_scheme_char (c : Ascii.ascii) : bool :=
  let n := Ascii.nat_of_ascii c in
  (is_alpha c || (48 <=? n) && (n <=? 57)
   || (n =? 43) || (n =? 45) || (n =? 46))%nat.

Fixpoint all_chars (p : Ascii.ascii → bool) (s : string) : bool :=
  match s with
  | EmptyString => true
  | String c s' => p c && all_chars p s'
  end.

Definition lower_char (c : Ascii.ascii) : Ascii.ascii :=
  let n := Ascii.nat_of_ascii c in
  if ((65 <=? n) && (n <=? 90))%nat then Ascii.ascii_of_nat (n + 32) else c.

Fixpoint lower (s : string) : string :=
  match s with
  | EmptyString => EmptyString
  | String c s' => String (lower_char c) (lower s')
  end.

(** [url.lstrip(_WHATWG_C0_CONTROL_OR_SPACE)]: the leading control
    characters and blanks go. *)
Fixpoint lstrip (s : string) : string :=
  match s with
  | EmptyString => EmptyString
  | String c s' =>
      if (Ascii.nat_of_ascii c <=? 32)%nat then lstrip s' else s
  end.

(** The tabs, carriage returns and line feeds go, wherever they stand. *)
Fixpoint remove_unsafe (s : string) : string :=
  match s with
  | EmptyString => EmptyString
  | String c s' =>
      let n := Ascii.nat_of_ascii c in
      if ((n =? 9) || (n =? 10) || (n =? 13))%nat then remove_unsafe s'
      else String c (remove_unsafe s')
  end.

(** The scheme and what follows its colon. *)
Definition split_scheme (u : string) : string * string :=
  let r := break (is_char ":"%char) u in
  match r.1, r.2 with
  | String c _, String _ rest =>
      if is_alpha c && all_chars is_scheme_char r.1
      then (lower r.1, rest) else (EmptyString, u)
  | _, _ => (EmptyString, u)
  end.

Definition split_netloc (u : string) : string * string :=
  match u with
  | String "/" (String "/" rest) =>
      break (λ c, is_char "/"%char c || is_char "?"%char c
                  || is_char "#"%char c) rest
  | _ => (EmptyString, u)
  end.

Definition uses_params : list string :=
  [""; "ftp"; "hdl"; "prospero"; "http"; "imap"; "https"; "shttp"; "rtsp";
   "rtspu"; "sip"; "sips"; "mms"; "sftp"; "tel"].

(** The text after the last [/] of [s], with what precedes it. *)
Fixpoint last_segment (s : string) : string * string :=
  match s with
  | EmptyString => (EmptyString, EmptyString)
  | String c s' =>
      let r := last_segment s' in
      if PyStr.str_in "/" s then
        (String c r.1, r.2)
      else (EmptyString, s)
  end.

Definition split_params (sch p : string) : string * string :=
  if bool_decide (sch ∈ uses_params) then
    let seg := last_segment p in
    let r := break (is_char ";"%char) seg.2 in
    (seg.1 +:+ r.1, tail r.2)
  else (p, EmptyString).

Definition is_ascii (c : Ascii.ascii) : bool :=
  (Ascii.nat_of_ascii c <? 128)%nat.

Section Validation.

(** Whether the library lets such a host through: the bracketed part is an
    IPv6 or IPvFuture address with nothing before it and at most a port
    after it ([_check_bracketed_netloc]), and no character turns into a
    delimiter under NFKC normalisation ([_checknetloc]). *)
Variable netloc_valid : string → bool.

(** Whether [urlsplit] goes on with that host rather than raise. *)
Definition netloc_accepted (n : string) : bool :=
  let opens := PyStr.str_in "[" n in
  let closes := PyStr.str_in "]" n in
  if xorb opens closes then false
  else if opens || negb (all_chars is_ascii n) then netloc_valid n
  else true.

(** [None] is the [ValueError] of a host that is refused. *)
Definition urlparse (u : string) : option ParseResult :=
  let u := remove_unsafe (lstrip u) in
  let s := split_scheme u in
  let n := split_netloc s.2 in
  if netloc_accepted n.1 then
    let f := break (is_char "#"%char) n.2 in
    let q := break (is_char "?"%char) f.1 in
    let p := split_params s.1 q.1 in
    Some (mk_ParseResult s.1 n.1 p.1 p.2 (tail q.2) (tail f.2))
  else None.

End Validation.

End UrlModel.

(** ** The polling cycle: [check_for_new_publications] *)

(** The two [send_message] calls made for one subscriber and one
    publication. *)
Inductive stage := Greeting | Details.

(** What the cycle does to the outside: log lines and [send_message]
    attempts with their outcome ([ok = false] when the call raised). *)
Inductive event :=
| Logged (e : log_entry)
| Send (chat_id : Z) (text : string)
       (reply_markup : option (list (list button))) (ok : bool).

Definition greeting : string := "¡Nueva publicación disponible!".

(** Lines 338-341 on their own: the diff and the conditional update of
    [previous_publications]. *)
Definition detect_new (current_publications previous : gset string)
  : gset string * gset string :=
  let new_publications := current_publications ∖ previous in
  (new_publications,
   if decide (new_publications = ∅) then previous else current_publications).

Section Cycle.

Variable strip : string → string.
Variable urljoin : string → string → option string.
Variable dateparser_parse : string → option PyTime.parsed.

(** The reading of the clock when the publication of that id is
    formatted. *)
Variable now : string → PyTime.datetime.

(** Whether [send_message] returns (rather than raises) for that
    publication, that subscriber and that stage. *)
Variable send_ok : string → Z → stage → bool.

(** The body of [for user_id in subscribers], lines 347-360: the second
    call is skipped when the first raises, and the exception is logged. *)
Definition notify_subscriber (pub_id message : string)
    (reply_markup : list (list button)) (user_id : Z) : list event :=
  if send_ok pub_id user_id Greeting then
    if send_ok pub_id user_id Details then
      [Send user_id greeting None true;
       Send user_id message (Some reply_markup) true]
    else
      [Send user_id greeting None true;
       Send user_id message (Some reply_markup) false;
       Logged (LogSendError user_id)]
  else
    [Send user_id greeting None false; Logged (LogSendError user_id)].

(** [next((row for row in vigente_data if row[0] == pub_id), None)];
    [row[0]] cannot raise here, it was read from every row of
    [vigente_data] two lines before. *)
Definition pub_details (vigente_data : list row) (pub_id : string) : option row :=
  snd <$> list_find (λ r : row, r !! 0%nat = Some pub_id) vigente_data.

(** The body of [for pub_id in new_publications], lines 343-360: what it
    sends and logs, and how it ends; the formatter raises before anything
    is sent for that id. *)
Definition notify_publication (vigente_data : list row) (subs : list Z)
    (pub_id : string) : list event * ending :=
  match pub_details vigente_data pub_id with
  | Some r =>
      if bool_decide (r ≠ []) then
        match format_single_publication dateparser_parse (now pub_id) r with
        | Some mm => (subs ≫= notify_subscriber pub_id mm.1 mm.2, Returned)
        | None => ([], Raised)
        end
      else ([], Returned)
  | None => ([], Returned)
  end.

(** The loop over the new ids: it stops at the first id whose body
    raises. *)
Fixpoint notify_all (vigente_data : list row) (subs : list Z)
    (new_publications : list string) : list event * ending :=
  match new_publications with
  | [] => ([], Returned)
  | pub_id :: rest =>
      match notify_publication vigente_data subs pub_id with
      | (evs, Returned) =>
          let out := notify_all vigente_data subs rest in
          (evs ++ out.1, out.2)
      | (evs, Raised) => (evs, Raised)
      end
  end.

(** The ids of line 335; [None] is the [IndexError] of an empty row. *)
Definition row_ids (vigente_data : list row) : option (list string) :=
  mapM (λ r : row, r !! 0%nat) vigente_data.

(** One cycle: the globals afterwards, what was logged and sent, and how
    the call ended. *)
Definition check_for_new_publications (st : state) (resp : http_result)
  : state * list event * ending :=
  let '(st1, current_data, log) := scrape_page strip urljoin st resp in
  match current_data ≫= filter_vigente with
  | Some vigente_data =>
      match row_ids vigente_data with
      | Some ids =>
          let current_publications : gset string := list_to_set ids in
          let new_publications :=
            current_publications ∖ previous_publications st1 in
          if decide (new_publications = ∅)
          then (st1, Logged <$> log, Returned)
          else
            let st2 := set_previous_publications st1 current_publications in
            let out := notify_all vigente_data (elements (subscribers st2))
                                  (elements new_publications) in
            (st2, (Logged <$> log) ++ out.1, out.2)
      | None => (st1, Logged <$> log, Raised)
      end
  | None => (st1, Logged <$> log, Raised)
  end.

(** The active ids a cycle computes from a response (line 335); there are
    none when the cycle does not get that far. *)
Definition active_ids (resp : http_result) : gset string :=
  let data := (scrape_page strip urljoin initial_state resp).1.2 in
  list_to_set (default [] ((data ≫= filter_vigente) ≫= row_ids)).

End Cycle.

(** ** The [/vigentes] command *)

(** What the handlers send back besides text: the bytes fetched from a
    URL, a serialized calendar, a generated summary. *)
Inductive attachment :=
| OriginalPdf (fetched_from : string)
| CalendarFile (content : string)
| SummaryPdf (content : string).

(** A message to the chat the update came from. *)
Inductive reply :=
| ReplyText (text : string) (reply_markup : option (list (list button)))
| ReplyDocument (filename : string) (document : attachment).

Section Vigentes.

Variable strip : string → string.
Variable urljoin : string → string → option string.
Variable dateparser_parse : string → option PyTime.parsed.

(** The reading of the clock when the record at that position of
    [vigente_data] is formatted. *)
Variable now_at : nat → PyTime.datetime.

(** The loop of lines 195-197, from position [i] on: the replies sent, and
    how the loop ends; it stops at the first record the formatter raises
    on. *)
Fixpoint vigentes_replies (i : nat) (vigente_data : list row)
  : list reply * ending :=
  match vigente_data with
  | [] => ([], Returned)
  | r :: rest =>
      match format_single_publication dateparser_parse (now_at i) r with
      | Some mm =>
          let out := vigentes_replies (S i) rest in
          (ReplyText mm.1 (Some mm.2) :: out.1, out.2)
      | None => ([], Raised)
      end
  end.

(** [vigentes]: the globals afterwards, what [scrape_page] logged, the
    replies sent and how the handler ended.  The calls of [reply_text] are
    taken to go through. *)
Definition vigentes (st : state) (resp : http_result)
  : state * list log_entry * list reply * ending :=
  let '(st1, current_data, log) := scrape_page strip urljoin st resp in
  match current_data ≫= filter_vigente with
  | Some vigente_data =>
      if bool_decide (vigente_data = []) then
        (st1, log,
         [ReplyText "No hay elementos vigentes en este momento." None],
         Returned)
      else
        let out := vigentes_replies 0 vigente_data in
        (st1, log, out.1, out.2)
  | None => (st1, log, [], Raised)
  end.

End Vigentes.

(** ** The buttons: [button_callback] *)

Module PyReplace.

(** [s.replace(old, new)] for a non-empty [old]: the occurrences are found
    from left to right and do not overlap.  [skip] counts the characters
    of the occurrence just found that are still to be dropped. *)
Fixpoint replace_from (skip : nat) (old new s : string) : string :=
  match s with
  | EmptyString => EmptyString
  | String c s' =>
      match skip with
      | S k => replace_from k old new s'
      | O =>
          if String.prefix old s
          then new +:+ replace_from (String.length old - 1) old new s'
          else String c (replace_from 0 old new s')
      end
  end.

Definition replace (old new s : string) : string := replace_from 0 old new s.

End PyReplace.

(** What the [try] around the download of lines 226-239 ends with: an
    exception, or the status of the response. *)
Inductive download :=
| DownloadRaised
| DownloadStatus (status : Z).

Inductive callback_log :=
| LogDownloadError
| LogDateError.

Inductive callback_event :=
| CallbackLogged (e : callback_log)
| CallbackReply (r : reply).

Section ButtonCallback.

Variable urlparse : string → option ParseResult.
Variable parse_qs : string → gmap string (list string).

(** The GET of the document, by URL. *)
Variable http_get : string → download.

(** [datetime.strptime(text, '%Y-%m-%d %H:%M:%S')]; [None] is its
    [ValueError]. *)
Variable strptime : string → option PyTime.datetime.

(** [description[:30]]. *)
Variable first_30 : string → string.

(** The calendar with one event (name, begin, end, description), serialized
    by the [ics] library, and the summary drawn by [FPDF] from its text
    lines and encoded; [None] when the library raises. *)
Variable ics_serialize :
  string → PyTime.datetime → PyTime.datetime → string → option string.
Variable fpdf_output : list string → option string.

Definition text_reply (text : string) : callback_event :=
  CallbackReply (ReplyText text None).

(** Lines 217-241. *)
Definition download_callback (st : state) (data : string)
  : option (list callback_event) :=
  let pub_id := PyReplace.replace "download_" "" data in
  match data_cache st !! pub_id with
  | Some pub_data =>
      if bool_decide (ce_pdf_url pub_data ≠ no_disponible) then
        pdf_url ←
          (if PyStr.str_in "drive.google.com" (ce_pdf_url pub_data)
           then convert_drive_url urlparse parse_qs (ce_pdf_url pub_data)
           else Some (ce_pdf_url pub_data));
        match http_get pdf_url with
        | DownloadStatus status =>
            if bool_decide (status = 200) then
              Some [CallbackReply
                      (ReplyDocument (pub_id +:+ ".pdf") (OriginalPdf pdf_url))]
            else Some [text_reply "No se pudo descargar el PDF."]
        | DownloadRaised =>
            Some [CallbackLogged LogDownloadError;
                  text_reply "Ocurrió un error al descargar el PDF."]
        end
      else Some [text_reply "El PDF no está disponible."]
  | None => Some [text_reply "El PDF no está disponible."]
  end.

(** Lines 242-276. *)
Definition calendar_callback (st : state) (data : string)
  : option (list callback_event) :=
  let pub_id := PyReplace.replace "calendar_" "" data in
  match data_cache st !! pub_id with
  | Some pub_data =>
      match strptime (ce_published_date pub_data) with
      | Some published_date =>
          match strptime (ce_expires_date pub_data) with
          | Some expires_date =>
              let description := ce_description pub_data in
              ics_content ←
                ics_serialize
                  ("Publicación #" +:+ pub_id +:+ " - "
                     +:+ first_30 description +:+ "...")
                  published_date expires_date description;
              Some [CallbackReply
                      (ReplyDocument (pub_id +:+ ".ics")
                                     (CalendarFile ics_content))]
          | None =>
              Some [CallbackLogged LogDateError;
                    text_reply
                      "Error al procesar las fechas de la publicación."]
          end
      | None =>
          Some [CallbackLogged LogDateError;
                text_reply "Error al procesar las fechas de la publicación."]
      end
  | None =>
      Some [text_reply "No se pudo encontrar los datos de la publicación."]
  end.

(** The text lines of the summary, lines 287-293. *)
Definition summary_lines (pub_id : string) (pub_data : cache_entry)
  : list string :=
  ["Publicación #" +:+ pub_id;
   "Descripción:" +:+ LF +:+ ce_description pub_data;
   "Publicado: " +:+ ce_published_date pub_data;
   "Vence: " +:+ ce_expires_date pub_data;
   "Estado: " +:+ ce_status pub_data].

(** Lines 279-307. *)
Definition sharepdf_callback (st : state) (data : string)
  : option (list callback_event) :=
  let pub_id := PyReplace.replace "sharepdf_" "" data in
  match data_cache st !! pub_id with
  | Some pub_data =>
      pdf_output ← fpdf_output (summary_lines pub_id pub_data);
      Some [CallbackReply
              (ReplyDocument ("Publicacion_" +:+ pub_id +:+ ".pdf")
                             (SummaryPdf pdf_output))]
  | None => Some [text_reply "No se pudo generar el PDF de la publicación."]
  end.

(** [button_callback] on the data of the pressed button; [None] is an
    exception leaving the handler, which then has sent nothing: every
    call that can raise comes before the one reply of its branch.  The
    calls to Telegram are taken to go through. *)
Definition button_callback (st : state) (data : string)
  : option (list callback_event) :=
  if PyStr.startswith data "download_" then download_callback st data
  else if PyStr.startswith data "calendar_" then calendar_callback st data
  else if PyStr.startswith data "sharepdf_" then sharepdf_callback st data
  else Some [].

End ButtonCallback.

(** ** Notions the statements below are phrased with *)

Section ScrapeSpec.

Variable strip : string → string.
Variable urljoin : string → string → option string.

(** The cache key and the cache value a row with at least six cells
    gives rise to when its link is one [urljoin] accepts; [None] for a
    shorter row and for a link that makes [urljoin] raise. *)
Definition row_entry (cols : tr) : option (string * cache_entry) :=
  if bool_decide (6 ≤ length cols)%nat then
    c0 ← cols !! 0%nat; c1 ← cols !! 1%nat; c2 ← cols !! 2%nat;
    c3 ← cols !! 3%nat; c4 ← cols !! 4%nat; c5 ← cols !! 5%nat;
    pdf_link ← pdf_link_of urljoin c2;
    Some (cell_text strip c0,
          mk_cache_entry
            ((cell_text strip <$> cols) ++ [pdf_link])
            pdf_link (cell_text strip c1)
            (cell_text strip c3) (cell_text strip c4) (cell_text strip c5))
  else None.

(** The record of [data] for such a row. *)
Definition row_record (cols : tr) : option row :=
  (ce_row ∘ snd) <$> row_entry cols.

(** The rows the loop does not skip. *)
Definition long_rows (rows : list tr) : list tr :=
  filter (λ cols : tr, 6 ≤ length cols)%nat rows.

(** A page on which [scrape_page] raises nothing: the link of every row
    of at least six cells is one [urljoin] accepts. *)
Definition links_join (rows : list tr) : Prop :=
  Forall (λ cols : tr, is_Some (row_record cols)) (long_rows rows).

End ScrapeSpec.

(** Storing a list of keyed entries one after the other, as the loop of
    [scrape_page] does. *)
Definition store (m : gmap string cache_entry)
    (es : list (string * cache_entry)) : gmap string cache_entry :=
  foldl (λ m p, <[p.1 := p.2]> m) m es.

(** The id of a record of [data], its first field. *)
Definition row_id (r : row) : string := default EmptyString (r !! 0%nat).

(** The status of a record, its sixth field. *)
Definition row_status (r : row) : string := default EmptyString (r !! 5%nat).

(** What the caller of [scrape_page] gets to see: the returned list and the
    globals. *)
Definition caller_view (out : state * option (list row) * list log_entry)
  : option (list row) * state := (out.1.2, out.1.1).

(** What [scrape_page] returns on a response, whatever the globals are;
    [None] when it raises. *)
Definition scraped (strip : string → string)
    (urljoin : string → string → option string) (resp : http_result)
  : option (list row) :=
  (scrape_page strip urljoin initial_state resp).1.2.

(** How [scrape_page] ends on a response. *)
Definition scrape_ending (strip : string → string)
    (urljoin : string → string → option string) (resp : http_result)
  : ending :=
  match scraped strip urljoin resp with Some _ => Returned | None => Raised end.

(** The records of a response that classify as active; there are none
    when [scrape_page] raises. *)
Definition vigente_rows (strip : string → string)
    (urljoin : string → string → option string) (resp : http_result)
  : list row :=
  filter (λ r, PyStr.str_in "Vigente" (row_status r) = true)
         (default [] (scraped strip urljoin resp)).

(** A record the formatter raises on although it has its seven fields:
    its expiry text parses to an aware datetime. *)
Definition aware_expiry (dateparser_parse : string → option PyTime.parsed)
    (r : row) : Prop :=
  ∃ r4 d, r !! 4%nat = Some r4 ∧ dateparser_parse r4 = Some (PyTime.Aware d).


(** Whether an event concerns the subscriber [u]: a [send_message] to that
    chat, or the log line of a failed one. *)
Definition addressed_to (u : Z) (ev : event) : bool :=
  match ev with
  | Send chat_id _ _ _ => bool_decide (chat_id = u)
  | Logged (LogSendError user_id) => bool_decide (user_id = u)
  | Logged _ => false
  end.

Definition events_for (u : Z) (evs : list event) : list event :=
  filter (λ ev, Is_true (addressed_to u ev)) evs.

Definition is_send (ev : event) : bool :=
  match ev with Send _ _ _ _ => true | Logged _ => false end.

(** The [send_message] attempts among the events of a cycle. *)
Definition sends (evs : list event) : list event :=
  filter (λ ev, Is_true (is_send ev)) evs.

(** ** Inputs of the closed examples *)

Module Sample.

(** Stand-ins for the library functions, right on the texts used below:
    [str.strip] leaves a text without surrounding white space as it is;
    [urljoin] of the base [url], which ends in a slash, with a bare file
    name appends the name, and raises on a reference whose host opens a
    bracket that it does not close. *)
Definition strip (s : string) : string := s.
Definition urljoin (base href : string) : option string :=
  if bool_decide (href = "//[x") then None else Some (base +:+ href).

(** A parser that knows three date texts: two without a zone, counted in
    microseconds from the first one, and one that names a zone. *)
Definition dateparser_parse (s : string) : option PyTime.parsed :=
  if bool_decide (s = "01/01/2025 00:00:00") then Some (PyTime.Naive 0)
  else if bool_decide (s = "03/01/2025 03:10:00")
  then Some (PyTime.Naive (((2 * 24 + 3) * 60 + 10) * 60 * 1000000))
  else if bool_decide (s = "03/01/2025 03:10:00 EST")
  then Some (PyTime.Aware (((2 * 24 + 3) * 60 + 10) * 60 * 1000000))
  else None.

(** A row of six cells, given the link of its third cell and its expiry
    text. *)
Definition cells_with (pub_id href expires status : string) : tr :=
  [mk_td pub_id None; mk_td "Servicio de mantenimiento" None;
   mk_td "Ver" (Some href); mk_td "01/01/2025 00:00:00" None;
   mk_td expires None; mk_td status None].

(** A row of six cells with a relative document link. *)
Definition cells (pub_id status : string) : tr :=
  cells_with pub_id "bases.pdf" "03/01/2025 03:10:00" status.

(** The record [scrape_page] makes of such a row. *)
Definition record (pub_id status : string) : row :=
  [pub_id; "Servicio de mantenimiento"; "Ver"; "01/01/2025 00:00:00";
   "03/01/2025 03:10:00"; status;
   "https://sistemas.undc.edu.pe/bienesyservicios/bases.pdf"].

(** A row with too few cells. *)
Definition short_cells : tr := [mk_td "sin datos" None].

Definition page_AB : http_result :=
  Fetched (PageRows [cells "A" "Vigente"; cells "B" "Vigente"]).

Definition page_A : http_result :=
  Fetched (PageRows [cells "A" "Vigente"; cells "B" "Vencido"]).

(** A page whose second row has a link [urljoin] raises on. *)
Definition page_bad_link : http_result :=
  Fetched (PageRows [cells "A" "Vigente";
                     cells_with "B" "//[x" "03/01/2025 03:10:00" "Vigente";
                     cells "C" "Vigente"]).

(** A page whose only row has an expiry text that names a zone. *)
Definition page_zone : http_result :=
  Fetched (PageRows [cells_with "Z" "bases.pdf" "03/01/2025 03:10:00 EST"
                                "Vigente"]).

(** A page whose second row has an expiry text that names a zone. *)
Definition page_two_zone : http_result :=
  Fetched (PageRows [cells "A" "Vigente";
                     cells_with "Z" "bases.pdf" "03/01/2025 03:10:00 EST"
                                "Vigente";
                     cells "C" "Vigente"]).


(** A state left by an earlier successful cycle. *)
Definition state_after_AB : state :=
  mk_state {[ 7 ]} {[ "A"; "B" ]}
    (scrape_rows strip urljoin [cells "A" "Vigente"; cells "B" "Vigente"]).2.

(** A clock that never moves, an outside world where every
    [send_message] succeeds, and one where chat 8 cannot be reached. *)
Definition now (pub_id : string) : PyTime.datetime := 0.
Definition send_all (pub_id : string) (u : Z) (s : stage) : bool := true.
Definition send_fails_for_8 (pub_id : string) (u : Z) (s : stage) : bool :=
  bool_decide (u ≠ 8).

Definition two_subscribers : state := mk_state {[ 7; 8 ]} ∅ ∅.

Definition cycle (send_ok : string → Z → stage → bool)
  : state → http_result → state * list event * ending :=
  check_for_new_publications strip urljoin dateparser_parse now send_ok.

End Sample.

(** ** Inputs of the closed examples on the buttons *)

Module SampleCallbacks.

(** Stand-ins for what [button_callback] reaches outside.  No URL below
    has a host [urlparse] would have to validate.  [parse_qs] knows the
    query of the sample drive link.  The document of the sample rows and
    the download URL of the sample drive file are served, no other URL
    is.  No date text has the format [strptime] asks for, and the two
    libraries build their files. *)
Definition urlparse : string → option ParseResult :=
  UrlModel.urlparse (λ _, false).

Definition parse_qs (q : string) : gmap string (list string) :=
  if bool_decide (q = "id=XYZ123") then {[ "id" := ["XYZ123"] ]} else ∅.

Definition http_get (u : string) : download :=
  if bool_decide
       (u = "https://sistemas.undc.edu.pe/bienesyservicios/bases.pdf")
  then DownloadStatus 200
  else if bool_decide
            (u = "https://drive.google.com/uc?export=download&id=XYZ123")
  then DownloadStatus 200
  else DownloadStatus 404.

Definition strptime (s : string) : option PyTime.datetime := None.

Definition first_30 (s : string) : string := s.

Definition ics_serialize (name : string) (begin_ end_ : PyTime.datetime)
    (description : string) : option string := Some name.

Definition fpdf_output (lines : list string) : option string :=
  Some (foldr String.append EmptyString lines).

Definition button_callback : state → string → option (list callback_event) :=
  button_callback urlparse parse_qs http_get strptime first_30
                  ics_serialize fpdf_output.


End SampleCallbacks.

(** * Theorems *)

(** ** Strings *)

Module PyStrFacts.
Import PyStr.

Local Arguments String.append !_ _ / : simpl nomatch.

Lemma prefix_app (p s : string) :
  String.prefix p s = true ↔ ∃ b, s = p +:+ b.
Proof.
  revert s. induction p as [|c p IH]; intros s.
  - split; [intros _; by exists s | by destruct s].
  - destruct s as [|d s]; simpl.
    + split; [done | intros [b Hb]; discriminate].
    + destruct (Ascii.ascii_dec c d) as [->|Hne].
      * rewrite IH. split; intros [b Hb]; exists b; simpl in *; congruence.
      * split; [done | intros [b Hb]; simpl in Hb; congruence].
Qed.

Lemma str_in_unfold (sub s : string) :
  str_in sub s =
  String.prefix sub s ||
  match s with EmptyString => false | String _ s' => str_in sub s' end.
Proof. by destruct s. Qed.

Lemma str_in_app (sub s : string) :
  str_in sub s = true ↔ ∃ a b, s = a +:+ sub +:+ b.
Proof.
  induction s as [|c s IH]; rewrite str_in_unfold, orb_true_iff, prefix_app.
  - split.
    + intros [[b Hb]|?]; [|done]. exists EmptyString, b. done.
    + intros (a & b & Hab). left.
      destruct a; simpl in Hab; [by exists b | discriminate].
  - rewrite IH. split.
    + intros [[b Hb]|(a & b & Hab)].
      * exists EmptyString, b. done.
      * exists (String c a), b. simpl. by rewrite Hab.
    + intros (a & b & Hab). destruct a as [|d a]; simpl in Hab.
      * left. by exists b.
      * right. exists a, b. congruence.
Qed.

Lemma count_app (sep : Ascii.ascii) (a b : string) :
  count sep (a +:+ b) = (count sep a + count sep b)%nat.
Proof. induction a as [|c a IH]; simpl; [done | rewrite IH; lia]. Qed.

Lemma split_length (sep : Ascii.ascii) (s : string) :
  length (split sep s) = S (count sep s).
Proof.
  induction s as [|c s IH]; simpl; [done|].
  destruct (Ascii.eqb c sep); simpl; [by rewrite IH|].
  destruct (split sep s); simpl in *; lia.
Qed.

(** A path containing ["/file/d/"] has an element of index 3 once split
    at its slashes: line 315 cannot raise. *)
Lemma split_file_d (p : string) :
  str_in "/file/d/" p = true → is_Some (split "/" p !! 3%nat).
Proof.
  intros (a & b & ->)%str_in_app. apply lookup_lt_is_Some.
  rewrite split_length, !count_app. simpl. lia.
Qed.

End PyStrFacts.

(** ** Extraction *)

Section ScrapeFacts.

Variable strip : string → string.
Variable urljoin : string → string → option string.

Abbreviation row_entry := (row_entry strip urljoin).
Abbreviation row_record := (row_record strip urljoin).
Abbreviation scrape_row := (scrape_row strip urljoin).
Abbreviation scrape_rows_from := (scrape_rows_from strip urljoin).
Abbreviation scrape_rows := (scrape_rows strip urljoin).
Abbreviation scrape_page := (scrape_page strip urljoin).

Lemma row_entry_short (cols : tr) :
  (length cols < 6)%nat → row_entry cols = None.
Proof.
  intros Hlen. unfold row_entry.
  by rewrite bool_decide_false by lia.
Qed.


(** The body of the loop: a short row is skipped, a long row stores its
    entry, and raises when it has none. *)
Lemma scrape_row_entry acc (cols : tr) :
  scrape_row acc cols =
  if bool_decide (6 ≤ length cols)%nat then
    p ← row_entry cols;
    Some (acc.1 ++ [ce_row p.2], <[p.1 := p.2]> acc.2)
  else Some acc.
Proof.
  do 6 (destruct cols as [|? cols]; [done|]).
  rewrite bool_decide_true by (simpl; lia).
  unfold scrape_row, row_entry.
  rewrite bool_decide_true by (simpl; lia). simpl.
  by destruct (pdf_link_of urljoin _).
Qed.

Lemma long_rows_cons (cols : tr) (rows : list tr) :
  long_rows (cols :: rows)
  = if bool_decide (6 ≤ length cols)%nat then cols :: long_rows rows
    else long_rows rows.
Proof.
  unfold long_rows. rewrite filter_cons.
  case_decide; [by rewrite bool_decide_true | by rewrite bool_decide_false].
Qed.

(** The loop on a page whose links all join. *)
Lemma scrape_rows_from_returns acc (rows : list tr) entries :
  mapM row_entry (long_rows rows) = Some entries →
  scrape_rows_from acc rows
  = (Some (acc.1 ++ ((ce_row ∘ snd) <$> entries)), store acc.2 entries).
Proof.
  revert acc entries.
  induction rows as [|cols rows IH]; intros acc entries.
  - intros [= <-]. simpl. by rewrite app_nil_r.
  - rewrite long_rows_cons. simpl. rewrite scrape_row_entry.
    case_bool_decide; [|apply IH].
    simpl. destruct (row_entry cols) as [p|]; [|done]. simpl.
    destruct (mapM row_entry (long_rows rows)) as [es|] eqn:Hes; [|done].
    simpl. intros [= <-]. rewrite (IH _ es eq_refl). simpl.
    by rewrite <- app_assoc.
Qed.

(** The loop on a page with a link that does not join: it raises at the
    first such row, with the entries of the rows before it stored. *)
Lemma scrape_rows_from_raises acc (rows : list tr) :
  mapM row_entry (long_rows rows) = None →
  ∃ before cols after entries,
    long_rows rows = before ++ cols :: after
    ∧ mapM row_entry before = Some entries
    ∧ row_entry cols = None
    ∧ scrape_rows_from acc rows = (None, store acc.2 entries).
Proof.
  revert acc. induction rows as [|cols rows IH]; intros acc; [done|].
  rewrite long_rows_cons. simpl. rewrite scrape_row_entry.
  case_bool_decide; [|apply IH].
  simpl. destruct (row_entry cols) as [p|] eqn:Hp; simpl.
  - destruct (mapM row_entry (long_rows rows)) as [es|] eqn:Hes; [done|].
    intros _.
    destruct (IH (acc.1 ++ [ce_row p.2], <[p.1:=p.2]> acc.2) eq_refl)
      as (before & bad & after & entries & Hlong & Hbefore & Hbad & Hrun).
    exists (cols :: before), bad, after, (p :: entries).
    rewrite Hlong. split; [done|]. split.
    { simpl. by rewrite Hp, Hbefore. }
    split; [done|]. by rewrite Hrun.
  - intros _. by exists [], cols, (long_rows rows), [].
Qed.

Lemma links_join_entries (rows : list tr) :
  links_join strip urljoin rows ↔ is_Some (mapM row_entry (long_rows rows)).
Proof.
  unfold links_join. rewrite mapM_is_Some.
  apply Forall_proper; [|done]. intros cols.
  unfold row_record. by rewrite fmap_is_Some.
Qed.


(** What [scrape_page] returns and stores when it returns. *)
Lemma scrape_page_returns st (rows : list tr) (data : list row) :
  (scrape_page st (Fetched (PageRows rows))).1.2 = Some data →
  ∃ entries,
    mapM row_entry (long_rows rows) = Some entries
    ∧ data = (ce_row ∘ snd) <$> entries
    ∧ data_cache (scrape_page st (Fetched (PageRows rows))).1.1
      = store ∅ entries.
Proof.
  simpl. unfold scrape_rows.
  destruct (mapM row_entry (long_rows rows)) as [es|] eqn:Hes.
  - rewrite (scrape_rows_from_returns _ _ es Hes). simpl.
    intros [= <-]. by exists es.
  - destruct (scrape_rows_from_raises ([], ∅) rows Hes)
      as (? & ? & ? & ? & _ & _ & _ & ->). done.
Qed.

Lemma long_rows_long_rows (rows : list tr) :
  long_rows (long_rows rows) = long_rows rows.
Proof.
  induction rows as [|cols rows IH]; [done|].
  rewrite long_rows_cons. case_bool_decide as Hlen; [|done].
  rewrite long_rows_cons, bool_decide_true by done. by rewrite IH.
Qed.


Lemma store_snoc m es p : store m (es ++ [p]) = <[p.1 := p.2]> (store m es).
Proof. unfold store. by rewrite foldl_app. Qed.

(** The cache holds, under each key, the entry stored last. *)
Lemma store_lookup m es (k : string) :
  store m es !! k =
  match last (filter (λ p : string * cache_entry, p.1 = k) es) with
  | Some p => Some p.2
  | None => m !! k
  end.
Proof.
  induction es as [|p es IH] using rev_ind; [done|].
  rewrite store_snoc, filter_app, filter_cons, filter_nil.
  destruct (decide (p.1 = k)) as [<-|Hne].
  - by rewrite last_snoc, lookup_insert_eq.
  - rewrite app_nil_r, lookup_insert_ne by done. apply IH.
Qed.

Lemma store_dom m es :
  dom (store m es) = dom m ∪ list_to_set es.*1.
Proof.
  induction es as [|p es IH] using rev_ind.
  - simpl. by rewrite (right_id_L ∅ (∪)).
  - rewrite store_snoc, dom_insert_L, IH, fmap_app, list_to_set_app_L.
    simpl. rewrite (right_id_L ∅ (∪)), (comm_L (∪) {[p.1]}).
    by rewrite (assoc_L (∪)).
Qed.

Lemma row_entry_id (cols : tr) p :
  row_entry cols = Some p → row_id (ce_row p.2) = p.1.
Proof.
  unfold row_entry. case_bool_decide; [|done].
  do 6 (destruct cols as [|? cols]; [done|]).
  simpl. destruct (pdf_link_of urljoin _); [|done]. by intros [= <-].
Qed.

Lemma row_entry_length (cols : tr) p :
  row_entry cols = Some p → length (ce_row p.2) = S (length cols).
Proof.
  unfold row_entry. case_bool_decide; [|done].
  do 6 (destruct cols as [|? cols]; [done|]).
  simpl. destruct (pdf_link_of urljoin _); [|done].
  intros [= <-]. simpl. rewrite length_app, length_fmap. simpl. lia.
Qed.

Lemma row_entry_long (cols : tr) p :
  row_entry cols = Some p → (6 ≤ length cols)%nat.
Proof.
  intros Hp. destruct (decide (length cols < 6)%nat) as [Hlt|]; [|lia].
  rewrite row_entry_short in Hp by done. discriminate.
Qed.

(** The entries of the rows of a page, each with its row. *)
Lemma entries_of_rows (rows : list tr) entries :
  mapM row_entry (long_rows rows) = Some entries →
  Forall2 (λ (cols : tr) p, row_entry cols = Some p) (long_rows rows) entries.
Proof. by rewrite mapM_Some. Qed.

Lemma entries_have_ids (l : list tr) entries :
  Forall2 (λ (cols : tr) p, row_entry cols = Some p) l entries →
  Forall (λ p : string * cache_entry, row_id (ce_row p.2) = p.1) entries.
Proof.
  induction 1 as [|cols p l entries Hp _ IH]; constructor; [|done].
  by apply (row_entry_id cols).
Qed.

Lemma entries_ids (entries : list (string * cache_entry)) :
  Forall (λ p : string * cache_entry, row_id (ce_row p.2) = p.1) entries →
  row_id <$> ((ce_row ∘ snd) <$> entries) = entries.*1.
Proof.
  induction 1 as [|p entries Hp _ IH]; [done|].
  rewrite !fmap_cons, IH. f_equal. done.
Qed.

(** Every record of [data] has at least seven fields. *)
Lemma scrape_page_rows_long st resp (data : list row) :
  (scrape_page st resp).1.2 = Some data →
  Forall (λ r : row, 7 ≤ length r)%nat data.
Proof.
  destruct resp as [|[| |rows]]; try (intros [= <-]; constructor).
  intros (entries & Hes%entries_of_rows & -> & _)%scrape_page_returns.
  induction Hes as [|cols p l entries Hp _ IH]; [constructor|].
  rewrite fmap_cons. constructor; [|done]. simpl.
  rewrite (row_entry_length _ _ Hp).
  apply row_entry_long in Hp. lia.
Qed.

(** The returned records and the log do not depend on the globals, and
    [scrape_page] touches no global but [data_cache], which it rebuilds
    from the response alone. *)
Lemma scrape_page_globals st resp :
  let out := scrape_page st resp in
  out.1.2 = scraped strip urljoin resp
  ∧ out.2 = (scrape_page initial_state resp).2
  ∧ subscribers out.1.1 = subscribers st
  ∧ previous_publications out.1.1 = previous_publications st
  ∧ out.1.1
    = set_data_cache st (data_cache (scrape_page initial_state resp).1.1).
Proof. by destruct resp as [|[| |rows]]. Qed.

End ScrapeFacts.

Section ScrapeTheorems.

Variable strip : string → string.
Variable urljoin : string → string → option string.

Lemma long_rows_records (l : list tr) entries :
  Forall2 (λ (cols : tr) p, row_entry strip urljoin cols = Some p) l entries →
  Forall2 (λ (cols : tr) (r : row), row_record strip urljoin cols = Some r)
          l ((ce_row ∘ snd) <$> entries).
Proof.
  induction 1 as [|cols p l entries Hp _ IH]; [constructor|].
  rewrite fmap_cons. constructor; [|done].
  unfold row_record. by rewrite Hp.
Qed.


Lemma filter_ids_entries (es : list (string * cache_entry)) (k : string) :
  Forall (λ p, row_id (ce_row p.2) = p.1) es →
  filter (λ r : row, row_id r = k) ((ce_row ∘ snd) <$> es)
  = (ce_row ∘ snd) <$> filter (λ p : string * cache_entry, p.1 = k) es.
Proof.
  induction 1 as [|p es Hp _ IH]; [done|].
  rewrite fmap_cons, !filter_cons. simpl. rewrite Hp, IH.
  by case_decide.
Qed.

(** The cache of a [scrape_page] that returned. *)
Lemma scrape_page_cache st resp (data : list row) :
  (scrape_page strip urljoin st resp).1.2 = Some data →
  ∃ entries,
    data = (ce_row ∘ snd) <$> entries
    ∧ data_cache (scrape_page strip urljoin st resp).1.1 = store ∅ entries
    ∧ Forall (λ p : string * cache_entry, row_id (ce_row p.2) = p.1) entries
    ∧ ∀ p, p ∈ entries → ∃ cols : tr, row_entry strip urljoin cols = Some p.
Proof.
  destruct resp as [|[| |rows]];
    try (intros [= <-]; exists []; split_and!;
         [done | done | constructor | by intros p ?%elem_of_nil]).
  intros (entries & Hes%entries_of_rows & -> & Hcache)%scrape_page_returns.
  exists entries. split_and!; [done | done | by eapply entries_have_ids |].
  intros p Hp.
  destruct (proj1 (list_elem_of_lookup _ _) Hp) as [i Hi].
  destruct (Forall2_lookup_r _ _ _ _ _ Hes Hi) as (cols & _ & Hcols).
  by exists cols.
Qed.

(** C10. After a [scrape_page] that returns, whatever the response, the
    keys of [data_cache] are the ids of the returned records; on a page
    with rows the returned list has one record per row of at least six
    cells, and the cache holds under each id the entry built from the last
    such row with that id, whose [row] is the last returned record with
    that id. *)
Theorem scrape_page_cache_keys :
  (∀ st resp (data : list row),
     let out := scrape_page strip urljoin st resp in
     out.1.2 = Some data →
     dom (data_cache out.1.1) = list_to_set (row_id <$> data))
  ∧ (∀ st (rows : list tr) (data : list row) (k : string),
       let out := scrape_page strip urljoin st (Fetched (PageRows rows)) in
       out.1.2 = Some data →
       ∃ entries,
         Forall2 (λ (cols : tr) p, row_entry strip urljoin cols = Some p)
                 (filter (λ cols : tr, 6 ≤ length cols)%nat rows) entries
         ∧ data = (ce_row ∘ snd) <$> entries
         ∧ data_cache out.1.1 !! k
           = snd <$> last (filter (λ p : string * cache_entry, p.1 = k)
                                  entries)
         ∧ ce_row <$> data_cache out.1.1 !! k
           = last (filter (λ r : row, row_id r = k) data)).
Proof.
  split.
  - intros st resp data out Hdata. unfold out in *.
    destruct (scrape_page_cache st resp data Hdata)
      as (entries & -> & -> & Hids & _).
    rewrite store_dom, dom_empty_L, (entries_ids _ Hids).
    apply (left_id_L ∅ (∪)).
  - intros st rows data k out Hdata. unfold out in *.
    pose proof Hdata as (entries & Hes%entries_of_rows & -> & ->)
      %scrape_page_returns.
    exists entries.
    assert (store ∅ entries !! k
            = snd <$> last (filter (λ p : string * cache_entry, p.1 = k)
                                   entries)) as Hlook.
    { rewrite store_lookup. by destruct (last (filter _ _)). }
    split_and!; [done | done | done |].
    rewrite Hlook, filter_ids_entries by (by eapply entries_have_ids).
    rewrite fmap_last. by destruct (last (filter _ _)).
Qed.

End ScrapeTheorems.


Lemma scrape_page_cache_keys_witness :
  ∃ data,
    (scrape_page Sample.strip Sample.urljoin initial_state
       Sample.page_AB).1.2 = Some data
    ∧ dom (data_cache (scrape_page Sample.strip Sample.urljoin initial_state
                         Sample.page_AB).1.1)
      = list_to_set (row_id <$> data).
Proof.
  assert (is_Some (scrape_page Sample.strip Sample.urljoin initial_state
                     Sample.page_AB).1.2) as [data Hret]
    by (eexists; vm_compute; reflexivity).
  exists data. split; [exact Hret|].
  exact (proj1 (scrape_page_cache_keys Sample.strip Sample.urljoin)
           initial_state Sample.page_AB data Hret).
Defined.

(** Two rows with the id ["A"]: both are returned, the cache keeps the
    second. *)
Example scrape_page_duplicate_id :
  let out := scrape_page Sample.strip Sample.urljoin initial_state
               (Fetched (PageRows [Sample.cells "A" "Vigente";
                                   Sample.short_cells;
                                   Sample.cells "A" "Vencido"])) in
  length <$> out.1.2 = Some 2%nat
  ∧ (λ data : list row, row_status <$> data) <$> out.1.2
    = Some ["Vigente"; "Vencido"]
  ∧ ce_status <$> data_cache out.1.1 !! "A" = Some "Vencido"
  ∧ dom (data_cache out.1.1) = {[ "A" ]}.
Proof. vm_compute. done. Qed.

(** A link that [urljoin] raises on, in the second of three rows: nothing
    is returned, and the cache is left with the first row alone. *)
Example scrape_page_raises :
  let out := scrape_page Sample.strip Sample.urljoin Sample.state_after_AB
               Sample.page_bad_link in
  out.1.2 = None
  ∧ out.2 = []
  ∧ dom (data_cache out.1.1) = {[ "A" ]}.
Proof. vm_compute. done. Qed.

(** ** Classification *)

Lemma is_vigente_long (r : row) :
  (6 ≤ length r)%nat →
  is_vigente r = Some (PyStr.str_in "Vigente" (row_status r)).
Proof.
  intros Hlen. unfold is_vigente, row_status.
  destruct (lookup_lt_is_Some_2 r 5) as [s Hs]; [lia|]. by rewrite Hs.
Qed.

Lemma filter_vigente_filter (data : list row) :
  Forall (λ r : row, 6 ≤ length r)%nat data →
  filter_vigente data
  = Some (filter (λ r, PyStr.str_in "Vigente" (row_status r) = true) data).
Proof.
  induction 1 as [|r data Hr _ IH]; [done|].
  simpl. rewrite (is_vigente_long r Hr), IH. simpl.
  rewrite filter_cons. by destruct (PyStr.str_in "Vigente" (row_status r)).
Qed.

(** A row without a sixth field makes the comprehension raise. *)
Lemma filter_vigente_short (data : list row) (r : row) :
  r ∈ data → (length r < 6)%nat → filter_vigente data = None.
Proof.
  intros Hin Hlen. induction Hin as [r data|r r' data _ IH]; simpl.
  - assert (is_vigente r = None) as ->; [|done].
    unfold is_vigente. by rewrite lookup_ge_None_2 by lia.
  - rewrite (IH Hlen). by destruct (is_vigente r').
Qed.

(** C3. On records that have a status field, [filter_vigente] returns the
    records whose status contains ["Vigente"] as a substring, letter case
    included, and no others: the result is the input filtered by that test,
    hence a subsequence of the input in the input's order.  The function
    builds a new list and leaves its argument as it is. *)
Theorem filter_vigente_pure_filter (data : list row) :
  Forall (λ r : row, 6 ≤ length r)%nat data →
  ∃ out,
    filter_vigente data = Some out
    ∧ out = filter (λ r, PyStr.str_in "Vigente" (row_status r) = true) data
    ∧ out `sublist_of` data
    ∧ ∀ r : row,
        r ∈ out ↔ r ∈ data ∧ ∃ a b, row_status r = a +:+ "Vigente" +:+ b.
Proof.
  intros Hlen. eexists. split; [by apply filter_vigente_filter|].
  split; [done|]. split; [apply sublist_filter|].
  intros r. rewrite list_elem_of_filter, PyStrFacts.str_in_app. tauto.
Qed.

Lemma filter_vigente_pure_filter_witness :
  let data : list row :=
    [["1"; "a"; ""; "p"; "e"; "Vigente"; "No disponible"];
     ["2"; "b"; ""; "p"; "e"; "vigente"; "No disponible"];
     ["3"; "c"; ""; "p"; "e"; "No Vigente aún"; "No disponible"]] in
  Forall (λ r : row, 6 ≤ length r)%nat data
  ∧ ∃ out,
      filter_vigente data = Some out
      ∧ out = filter (λ r, PyStr.str_in "Vigente" (row_status r) = true) data
      ∧ out `sublist_of` data
      ∧ ∀ r : row,
          r ∈ out ↔ r ∈ data ∧ ∃ a b, row_status r = a +:+ "Vigente" +:+ b.
Proof.
  simpl.
  assert (Forall (λ r : row, 6 ≤ length r)%nat
            [["1"; "a"; ""; "p"; "e"; "Vigente"; "No disponible"];
             ["2"; "b"; ""; "p"; "e"; "vigente"; "No disponible"];
             ["3"; "c"; ""; "p"; "e"; "No Vigente aún"; "No disponible"]])
    as Hlen by (repeat constructor; simpl; lia).
  split; [exact Hlen|].
  exact (filter_vigente_pure_filter _ Hlen).
Defined.

(** The test is case-sensitive and looks inside the status text. *)
Example filter_vigente_case :
  filter_vigente
    [["1"; "a"; ""; "p"; "e"; "Vigente"; "No disponible"];
     ["2"; "b"; ""; "p"; "e"; "vigente"; "No disponible"];
     ["3"; "c"; ""; "p"; "e"; "No Vigente aún"; "No disponible"]]
  = Some [["1"; "a"; ""; "p"; "e"; "Vigente"; "No disponible"];
          ["3"; "c"; ""; "p"; "e"; "No Vigente aún"; "No disponible"]].
Proof. reflexivity. Qed.

(** ** Remaining time *)

Module PyTimeFacts.
Import PyTime.

Lemma to_of_microseconds (us : Z) : to_microseconds (of_microseconds us) = us.
Proof.
  unfold to_microseconds, of_microseconds, us_per_day, us_per_second. simpl.
  Z.div_mod_to_equations. lia.
Qed.

(** The normal form of a [timedelta]. *)
Lemma of_microseconds_normal (us : Z) :
  0 ≤ seconds (of_microseconds us) < 86400
  ∧ 0 ≤ microseconds (of_microseconds us) < 1000000.
Proof.
  unfold of_microseconds, us_per_day, us_per_second. simpl.
  Z.div_mod_to_equations. lia.
Qed.

Lemma sub_negative (a b : datetime) :
  total_seconds_negative (sub a b) = bool_decide (a < b).
Proof.
  unfold total_seconds_negative, sub. rewrite to_of_microseconds.
  case_bool_decide; [apply Z.ltb_lt | apply Z.ltb_ge]; lia.
Qed.

End PyTimeFacts.

Section FormatFacts.

Variable dateparser_parse : string → option PyTime.parsed.

Lemma string_app_assoc (a b c : string) : (a +:+ b) +:+ c = a +:+ b +:+ c.
Proof.
  induction a as [|x a IH]; [done|].
  cbv [String.append]; fold String.append. by rewrite <- IH.
Qed.

Lemma string_app_regroup (a b c d e f g x : string) :
  a +:+ b +:+ c +:+ d +:+ e +:+ f +:+ g +:+ x
  = (a +:+ b +:+ c +:+ d +:+ e +:+ f +:+ g) +:+ x.
Proof. by rewrite !string_app_assoc. Qed.

(** On a record of seven fields or more the formatter raises exactly when
    the remaining time does; otherwise the message carries it. *)
Lemma format_single_publication_long now (r : row) :
  (7 ≤ length r)%nat →
  ∃ r4,
    r !! 4%nat = Some r4
    ∧ match available_time now (dateparser_parse r4) with
      | Some shown =>
          ∃ message markup pre post,
            format_single_publication dateparser_parse now r
            = Some (message, markup)
            ∧ message = pre +:+ "⏱ <b>Tiempo disponible:</b> "
                            +:+ shown +:+ post
      | None => format_single_publication dateparser_parse now r = None
      end.
Proof.
  intros Hlen.
  destruct r as [|r0 [|r1 [|r2 [|r3 [|r4 [|r5 [|r6 r]]]]]]];
    simpl in Hlen; try lia.
  exists r4. split; [reflexivity|].
  unfold format_single_publication.
  change ((r0 :: r1 :: r2 :: r3 :: r4 :: r5 :: r6 :: r) !! 6%nat)
    with (Some r6).
  change ((r0 :: r1 :: r2 :: r3 :: r4 :: r5 :: r6 :: r) !! 3%nat)
    with (Some r3).
  change ((r0 :: r1 :: r2 :: r3 :: r4 :: r5 :: r6 :: r) !! 4%nat)
    with (Some r4).
  change ((r0 :: r1 :: r2 :: r3 :: r4 :: r5 :: r6 :: r) !! 0%nat)
    with (Some r0).
  change ((r0 :: r1 :: r2 :: r3 :: r4 :: r5 :: r6 :: r) !! 1%nat)
    with (Some r1).
  change ((r0 :: r1 :: r2 :: r3 :: r4 :: r5 :: r6 :: r) !! 5%nat)
    with (Some r5).
  cbn [mbind option_bind].
  destruct (available_time now (dateparser_parse r4)) as [shown|];
    [|reflexivity].
  cbn [mbind option_bind].
  destruct (bool_decide _); eexists _, _, _, _;
    (split; [reflexivity|]); apply string_app_regroup.
Qed.

Lemma format_single_publication_short now (r : row) :
  (length r < 7)%nat → format_single_publication dateparser_parse now r = None.
Proof.
  intros Hlen. unfold format_single_publication.
  by rewrite (lookup_ge_None_2 r 6) by lia.
Qed.

(** The remaining time raises on an aware expiry and on nothing else. *)
Lemma available_time_raises (now : PyTime.datetime)
    (expires_date : option PyTime.parsed) :
  available_time now expires_date = None
  ↔ ∃ d, expires_date = Some (PyTime.Aware d).
Proof.
  destruct expires_date as [[e|d]|]; simpl.
  - split; [done | by intros [? ?]].
  - split; [by exists d | done].
  - split; [done | by intros [? ?]].
Qed.

(** When the formatter raises. *)
Lemma format_single_publication_none now (r : row) :
  format_single_publication dateparser_parse now r = None
  ↔ (length r < 7)%nat ∨ aware_expiry dateparser_parse r.
Proof.
  destruct (decide (length r < 7)%nat) as [Hshort|Hlong].
  { rewrite format_single_publication_short by done. split; [by left|done]. }
  destruct (format_single_publication_long now r) as (r4 & Hr4 & Hfmt);
    [lia|].
  assert (aware_expiry dateparser_parse r
          ↔ available_time now (dateparser_parse r4) = None) as Haware.
  { rewrite available_time_raises. unfold aware_expiry. split.
    - intros (r4' & d & Hr4' & Hd). exists d. congruence.
    - intros [d Hd]. by exists r4, d. }
  destruct (available_time now (dateparser_parse r4)) as [shown|].
  - destruct Hfmt as (message & markup & _ & _ & -> & _).
    split; [done|]. intros [?|Hd]; [lia|]. by apply Haware in Hd.
  - rewrite Hfmt. split; [|done]. intros _. right. by apply Haware.
Qed.

(** The three numbers shown are the whole minutes of
    [max(0, expires - now)], split into days, hours and minutes. *)
Lemma available_time_parsed (now e : PyTime.datetime) :
  ∃ d h m : Z,
    available_time now (Some (PyTime.Naive e))
    = Some (pretty d +:+ " días, " +:+ pretty h +:+ " horas, "
              +:+ pretty m +:+ " minutos")
    ∧ 0 ≤ d ∧ 0 ≤ h < 24 ∧ 0 ≤ m < 60
    ∧ (d * 1440 + h * 60 + m) * 60000000 ≤ Z.max 0 (e - now)
      < (d * 1440 + h * 60 + m + 1) * 60000000.
Proof.
  unfold available_time, PyTime.sub_now. cbn [mbind option_bind].
  rewrite PyTimeFacts.sub_negative.
  case_bool_decide as Hlt.
  - exists 0, 0, 0. split; [done|]. lia.
  - eexists _, _, _. split; [reflexivity|].
    unfold PyTime.sub, PyTime.of_microseconds, PyTime.us_per_day,
      PyTime.us_per_second. simpl.
    rewrite Z.max_r by lia.
    Z.div_mod_to_equations. lia.
Qed.

Lemma available_time_past (now e : PyTime.datetime) :
  e ≤ now →
  available_time now (Some (PyTime.Naive e))
  = Some "0 días, 0 horas, 0 minutos".
Proof.
  intros Hle. unfold available_time, PyTime.sub_now.
  cbn [mbind option_bind]. rewrite PyTimeFacts.sub_negative.
  case_bool_decide; [done|].
  assert (e = now) as -> by lia.
  unfold PyTime.sub. by rewrite Z.sub_diag.
Qed.

Lemma available_time_ahead (now : PyTime.datetime) :
  available_time now
    (Some (PyTime.Naive
             (now + ((2 * 24 + 3) * 60 + 10) * 60 * PyTime.us_per_second)))
  = Some "2 días, 3 horas, 10 minutos".
Proof.
  unfold available_time, PyTime.sub_now. cbn [mbind option_bind].
  rewrite PyTimeFacts.sub_negative.
  rewrite bool_decide_false by (unfold PyTime.us_per_second; lia).
  unfold PyTime.sub.
  replace (now + ((2 * 24 + 3) * 60 + 10) * 60 * PyTime.us_per_second - now)
    with (((2 * 24 + 3) * 60 + 10) * 60 * PyTime.us_per_second) by lia.
  reflexivity.
Qed.

End FormatFacts.

(** ** The cycle *)

Lemma filter_bind {A B} (P : B → Prop) `{!∀ x, Decision (P x)}
    (f : A → list B) (l : list A) :
  filter P (l ≫= f) = l ≫= (λ x, filter P (f x)).
Proof.
  induction l as [|x l IH]; [done|].
  rewrite !bind_cons, filter_app. by rewrite IH.
Qed.

Lemma bind_ext_in {A B} (f g : A → list B) (l : list A) :
  (∀ x, x ∈ l → f x = g x) → l ≫= f = l ≫= g.
Proof.
  induction l as [|x l IH]; intros Hfg; [done|].
  rewrite !bind_cons, Hfg by left. f_equal. apply IH.
  intros y Hy. apply Hfg. by right.
Qed.

Lemma row_ids_long (vd : list row) :
  Forall (λ r : row, 7 ≤ length r)%nat vd →
  row_ids vd = Some (row_id <$> vd).
Proof.
  intros Hlen. apply mapM_Some. induction Hlen as [|r vd Hr _ IH]; simpl.
  - constructor.
  - constructor; [|done]. unfold row_id.
    destruct (lookup_lt_is_Some_2 r 0) as [x Hx]; [lia|]. by rewrite Hx.
Qed.

Lemma row_id_lookup (r : row) :
  (7 ≤ length r)%nat → r !! 0%nat = Some (row_id r).
Proof.
  intros Hlen. unfold row_id.
  destruct (lookup_lt_is_Some_2 r 0) as [x Hx]; [lia|]. by rewrite Hx.
Qed.

Section CycleFacts.

Variable strip : string → string.
Variable urljoin : string → string → option string.
Variable dateparser_parse : string → option PyTime.parsed.
Variable now : string → PyTime.datetime.

Abbreviation notify_publication' :=
  (notify_publication dateparser_parse now).
Abbreviation notify_all' := (notify_all dateparser_parse now).
Abbreviation cycle :=
  (check_for_new_publications strip urljoin dateparser_parse now).

Lemma vigente_rows_scraped resp (r : row) :
  r ∈ vigente_rows strip urljoin resp →
  ∃ data, scraped strip urljoin resp = Some data ∧ r ∈ data.
Proof.
  unfold vigente_rows. intros [_ Hr]%list_elem_of_filter.
  destruct (scraped strip urljoin resp) as [data|]; [by exists data|].
  by apply elem_of_nil in Hr.
Qed.

Lemma vigente_rows_long resp :
  Forall (λ r : row, 7 ≤ length r)%nat (vigente_rows strip urljoin resp).
Proof.
  apply Forall_forall. intros r (data & Hdata & Hr)%vigente_rows_scraped.
  pose proof (scrape_page_rows_long strip urljoin initial_state resp data
                Hdata) as Hall.
  rewrite Forall_forall in Hall. by apply Hall.
Qed.

Lemma filter_vigente_scraped st resp (data : list row) :
  (scrape_page strip urljoin st resp).1.2 = Some data →
  filter_vigente data = Some (vigente_rows strip urljoin resp).
Proof.
  intros Hdata.
  pose proof (scrape_page_rows_long strip urljoin st resp data Hdata) as Hl.
  destruct (scrape_page_globals strip urljoin st resp) as (Hsame & _).
  unfold vigente_rows. rewrite <- Hsame, Hdata. simpl.
  apply filter_vigente_filter.
  eapply Forall_impl; [exact Hl|]. simpl. lia.
Qed.

Lemma active_ids_rows resp :
  active_ids strip urljoin resp
  = list_to_set (row_id <$> vigente_rows strip urljoin resp).
Proof.
  unfold active_ids.
  destruct ((scrape_page strip urljoin initial_state resp).1.2)
    as [data|] eqn:Hdata; simpl.
  - rewrite (filter_vigente_scraped initial_state resp data Hdata). simpl.
    by rewrite row_ids_long by apply vigente_rows_long.
  - unfold vigente_rows, scraped. by rewrite Hdata.
Qed.

(** There are no active ids when [scrape_page] raises. *)
Lemma active_ids_raised resp :
  scraped strip urljoin resp = None → active_ids strip urljoin resp = ∅.
Proof.
  intros Hnone. rewrite active_ids_rows.
  unfold vigente_rows. by rewrite Hnone.
Qed.

(** The first active record with a given id, when the id is active. *)
Lemma pub_details_active resp (p : string) :
  p ∈ active_ids strip urljoin resp →
  ∃ r, pub_details (vigente_rows strip urljoin resp) p = Some r
       ∧ r ∈ vigente_rows strip urljoin resp ∧ row_id r = p.
Proof.
  rewrite active_ids_rows, elem_of_list_to_set, list_elem_of_fmap.
  intros (r & -> & Hr).
  pose proof (vigente_rows_long resp) as Hall. rewrite Forall_forall in Hall.
  destruct (list_find_elem_of (λ r' : row, r' !! 0%nat = Some (row_id r))
              (vigente_rows strip urljoin resp) r Hr) as [[i r'] Hfind].
  { by apply row_id_lookup, Hall. }
  exists r'. unfold pub_details. rewrite Hfind. simpl.
  apply list_find_Some in Hfind as (Hi & H0 & _).
  assert (r' ∈ vigente_rows strip urljoin resp) as Hr'
    by (by eapply list_elem_of_lookup_2).
  split_and!; [done | done |].
  rewrite (row_id_lookup r' (Hall _ Hr')) in H0. congruence.
Qed.

(** What [pub_details] finds is an active record with that id. *)
Lemma pub_details_found resp (p : string) (r : row) :
  pub_details (vigente_rows strip urljoin resp) p = Some r →
  r ∈ vigente_rows strip urljoin resp ∧ row_id r = p ∧ (7 ≤ length r)%nat.
Proof.
  unfold pub_details. intros ([i r'] & Hfind & ->)%fmap_Some.
  apply list_find_Some in Hfind as (Hi & H0 & _). simpl in *.
  assert (r' ∈ vigente_rows strip urljoin resp) as Hr'
    by (by eapply list_elem_of_lookup_2).
  pose proof (vigente_rows_long resp) as Hall. rewrite Forall_forall in Hall.
  split_and!; [done | | by apply Hall].
  unfold row_id. by rewrite H0.
Qed.

Section Oracle.

Variable send_ok : string → Z → stage → bool.

(** The three ways the body of the loop over the new ids goes. *)
Lemma notify_publication_cases (vd : list row) (subs : list Z) (p : string) :
  notify_publication' send_ok vd subs p = ([], Returned)
  ∨ (∃ r, pub_details vd p = Some r
          ∧ format_single_publication dateparser_parse (now p) r = None
          ∧ notify_publication' send_ok vd subs p = ([], Raised))
  ∨ ∃ r message markup,
      pub_details vd p = Some r
      ∧ format_single_publication dateparser_parse (now p) r
        = Some (message, markup)
      ∧ notify_publication' send_ok vd subs p
        = (subs ≫= notify_subscriber send_ok p message markup, Returned).
Proof.
  unfold notify_publication.
  destruct (pub_details vd p) as [r|]; [|by left].
  case_bool_decide; [|by left].
  destruct (format_single_publication _ _ r) as [[message markup]|] eqn:Hfmt.
  - right. right. by exists r, message, markup.
  - right. left. by exists r.
Qed.

(** What the loop sent is the start of what its bodies send. *)
Lemma notify_all_prefix (vd : list row) (subs : list Z) (new : list string) :
  (notify_all' send_ok vd subs new).1
  `prefix_of` new ≫= λ p, (notify_publication' send_ok vd subs p).1.
Proof.
  induction new as [|p new IH]; [done|].
  rewrite bind_cons. cbn [notify_all].
  destruct (notify_publication' send_ok vd subs p) as [evs [|]] eqn:Hp;
    cbn [fst snd].
  - by apply prefix_app.
  - by apply prefix_app_r.
Qed.

(** The loop returns exactly when every body does, and it then sent what
    the bodies send. *)
Lemma notify_all_returned (vd : list row) (subs : list Z) (new : list string) :
  (notify_all' send_ok vd subs new).2 = Returned
  ↔ Forall (λ p, (notify_publication' send_ok vd subs p).2 = Returned) new.
Proof.
  clear strip urljoin.
  induction new as [|p new IH]; [by split; [constructor|]|].
  rewrite Forall_cons. simpl.
  destruct (notify_publication' send_ok vd subs p) as [evs [|]]; simpl.
  - rewrite IH. tauto.
  - split; [done | by intros [? _]].
Qed.

Lemma notify_all_bind (vd : list row) (subs : list Z) (new : list string) :
  (notify_all' send_ok vd subs new).2 = Returned →
  (notify_all' send_ok vd subs new).1
  = new ≫= λ p, (notify_publication' send_ok vd subs p).1.
Proof.
  induction new as [|p new IH]; [done|].
  rewrite bind_cons. cbn [notify_all].
  destruct (notify_publication' send_ok vd subs p) as [evs [|]];
    cbn [fst snd]; [|done].
  intros Hret. by rewrite IH.
Qed.

(** One cycle, in closed form. *)
Lemma check_for_new_publications_eq st resp :
  let out := scrape_page strip urljoin st resp in
  let current := active_ids strip urljoin resp in
  let new := current ∖ previous_publications st in
  let sent := notify_all' send_ok (vigente_rows strip urljoin resp)
                (elements (subscribers st)) (elements new) in
  cycle send_ok st resp =
  (if decide (new = ∅) then out.1.1
   else set_previous_publications out.1.1 current,
   (Logged <$> out.2) ++ sent.1,
   match out.1.2 with Some _ => sent.2 | None => Raised end).
Proof.
  simpl. unfold check_for_new_publications.
  destruct (scrape_page_globals strip urljoin st resp)
    as (Hdata & _ & Hsubs & Hprev & _).
  pose proof (filter_vigente_scraped st resp) as Hfilter.
  destruct (scrape_page strip urljoin st resp) as [[st1 [data|]] log];
    simpl in *.
  - rewrite (Hfilter data eq_refl). simpl.
    rewrite row_ids_long by apply vigente_rows_long.
    rewrite <- active_ids_rows, Hprev.
    case_decide as Hnew.
    + rewrite Hnew, elements_empty. simpl. by rewrite app_nil_r.
    + simpl. by rewrite Hsubs.
  - rewrite (active_ids_raised resp) by done.
    assert ((∅ : gset string) ∖ previous_publications st = ∅) as ->.
    { apply set_eq. intros x. rewrite elem_of_difference, elem_of_empty.
      tauto. }
    rewrite decide_True by done. rewrite elements_empty. simpl.
    by rewrite app_nil_r.
Qed.

End Oracle.

(** Whether a body of the loop raises is not a matter of the calls of
    [send_message]. *)
Lemma notify_publication_ending send_ok send_ok' (vd : list row)
    (subs : list Z) (p : string) :
  (notify_publication' send_ok' vd subs p).2
  = (notify_publication' send_ok vd subs p).2.
Proof.
  unfold notify_publication.
  destruct (pub_details vd p) as [r|]; [|done].
  case_bool_decide; [|done].
  by destruct (format_single_publication _ _ r).
Qed.

Lemma notify_all_ending send_ok send_ok' (vd : list row) (subs : list Z)
    (new : list string) :
  (notify_all' send_ok' vd subs new).2 = (notify_all' send_ok vd subs new).2.
Proof.
  induction new as [|p new IH]; [done|].
  simpl. pose proof (notify_publication_ending send_ok send_ok' vd subs p).
  destruct (notify_publication' send_ok vd subs p) as [evs e],
    (notify_publication' send_ok' vd subs p) as [evs' e'].
  simpl in *. subst e'. by destruct e.
Qed.

End CycleFacts.

Section CycleTheorems.

Variable strip : string → string.
Variable urljoin : string → string → option string.
Variable dateparser_parse : string → option PyTime.parsed.
Variable now : string → PyTime.datetime.
Variable send_ok : string → Z → stage → bool.

Abbreviation run :=
  (check_for_new_publications strip urljoin dateparser_parse now send_ok).

(** A response that yields no record leaves only the cache touched. *)
Lemma cycle_without_records st resp :
  scraped strip urljoin resp = Some [] →
  run st resp
  = (set_data_cache st ∅,
     Logged <$> (scrape_page strip urljoin st resp).2, Returned).
Proof.
  intros Hdata.
  pose proof (check_for_new_publications_eq strip urljoin dateparser_parse
                now send_ok st resp) as Heq.
  simpl in Heq. rewrite Heq.
  destruct (scrape_page_globals strip urljoin st resp)
    as (Hsame & _ & _ & _ & Hst).
  rewrite Hsame, Hdata.
  assert (active_ids strip urljoin resp = ∅) as ->.
  { rewrite active_ids_rows. unfold vigente_rows. by rewrite Hdata. }
  assert ((∅ : gset string) ∖ previous_publications st = ∅) as ->.
  { apply set_eq. intros x. rewrite elem_of_difference, elem_of_empty.
    tauto. }
  rewrite decide_True by done. rewrite elements_empty. simpl.
  rewrite app_nil_r. f_equal. f_equal. rewrite Hst. f_equal.
  destruct (scrape_page_cache strip urljoin initial_state resp [] Hdata)
    as (entries & Hnil & -> & _).
  symmetry in Hnil. apply fmap_nil_inv in Hnil. by rewrite Hnil.
Qed.

(** C1. A cycle computes the active ids of the response minus
    [previous_publications] and notifies exactly those; when the
    difference is not empty the whole current active set becomes
    [previous_publications], and when it is empty
    [previous_publications] stays as it was, also in a cycle that raises
    later on.  From the empty set, [{A, B}] gives [{A, B}] and records
    [{A, B}]; then [{A}] gives nothing and keeps [{A, B}]; then [{A, B}]
    gives nothing again. *)
Theorem check_for_new_publications_detect_new :
  (∀ st resp,
     let current := active_ids strip urljoin resp in
     let previous := previous_publications st in
     let d := detect_new current previous in
     let out := run st resp in
     d.1 = current ∖ previous
     ∧ d.2 = (if decide (current ∖ previous = ∅) then previous else current)
     ∧ previous_publications out.1.1 = d.2
     ∧ out.1.2
       = (Logged <$> (scrape_page strip urljoin st resp).2)
         ++ (notify_all dateparser_parse now send_ok
               (vigente_rows strip urljoin resp)
               (elements (subscribers st)) (elements d.1)).1
     ∧ (out.2 = Returned →
        out.1.2
        = (Logged <$> (scrape_page strip urljoin st resp).2)
          ++ (elements d.1 ≫= λ p,
                (notify_publication dateparser_parse now send_ok
                   (vigente_rows strip urljoin resp)
                   (elements (subscribers st)) p).1)))
  ∧ detect_new {[ "A"; "B" ]} ∅ = ({[ "A"; "B" ]}, {[ "A"; "B" ]})
  ∧ detect_new {[ "A" ]} {[ "A"; "B" ]} = (∅, {[ "A"; "B" ]})
  ∧ detect_new {[ "A"; "B" ]} {[ "A"; "B" ]} = (∅, {[ "A"; "B" ]})
  ∧ (∃ evs1 st2,
       Sample.cycle Sample.send_all (mk_state {[ 7 ]} ∅ ∅) Sample.page_AB
       = (Sample.state_after_AB, evs1, Returned)
       ∧ length (sends evs1) = 4%nat
       ∧ Sample.cycle Sample.send_all Sample.state_after_AB Sample.page_A
         = (st2, [], Returned)
       ∧ previous_publications st2 = {[ "A"; "B" ]}
       ∧ Sample.cycle Sample.send_all st2 Sample.page_AB
         = (Sample.state_after_AB, [], Returned)).
Proof.
  split_and!.
  - intros st resp. cbv zeta. split; [done|]. split; [done|].
    pose proof (check_for_new_publications_eq strip urljoin dateparser_parse
                  now send_ok st resp) as Heq.
    simpl in Heq. rewrite Heq. simpl.
    destruct (scrape_page_globals strip urljoin st resp)
      as (Hsame & _ & _ & Hprev & _).
    split; [case_decide; simpl; by rewrite ?Hprev|].
    split; [done|].
    destruct ((scrape_page strip urljoin st resp).1.2) as [data|]; [|done].
    intros Hret. f_equal. by apply notify_all_bind.
  - vm_compute. reflexivity.
  - vm_compute. reflexivity.
  - vm_compute. reflexivity.
  - eexists _, _. split_and!.
    + vm_compute. reflexivity.
    + vm_compute. reflexivity.
    + vm_compute. reflexivity.
    + vm_compute. reflexivity.
    + vm_compute. reflexivity.
Qed.

(** C2, as the code has it. A cycle whose fetch raises, or whose page
    lacks the table or its body, sends nothing, logs the failure, returns
    and leaves [previous_publications] and [subscribers] as they were;
    [data_cache] is emptied, as at the start of every [scrape_page], and
    never left partly rebuilt. *)
Theorem failed_cycle_state st :
  run st FetchException
  = (set_data_cache st ∅, [Logged LogFetchError], Returned)
  ∧ run st (Fetched PageNoTable)
    = (set_data_cache st ∅, [Logged LogNoTable], Returned)
  ∧ run st (Fetched PageNoTbody)
    = (set_data_cache st ∅, [Logged LogNoTbody], Returned)
  ∧ previous_publications (set_data_cache st ∅) = previous_publications st
  ∧ subscribers (set_data_cache st ∅) = subscribers st
  ∧ data_cache (set_data_cache st ∅) = ∅.
Proof.
  split_and!; try reflexivity;
    rewrite cycle_without_records by reflexivity; reflexivity.
Qed.

(** C9, as the code has it. When the table or its body is missing,
    [scrape_page] hands its caller the same empty list and the same
    emptied cache as for a table without rows, and the cycle returns
    without sending anything in either case; the log alone tells them
    apart: one error line for the missing table, another for the missing
    body, none for the empty table. *)
Theorem scrape_page_missing_structure st :
  let no_table := scrape_page strip urljoin st (Fetched PageNoTable) in
  let no_tbody := scrape_page strip urljoin st (Fetched PageNoTbody) in
  let empty := scrape_page strip urljoin st (Fetched (PageRows [])) in
  caller_view no_table = (Some [], set_data_cache st ∅)
  ∧ caller_view no_tbody = (Some [], set_data_cache st ∅)
  ∧ caller_view empty = (Some [], set_data_cache st ∅)
  ∧ no_table.2 = [LogNoTable]
  ∧ no_tbody.2 = [LogNoTbody]
  ∧ empty.2 = []
  ∧ (sends (run st (Fetched PageNoTable)).1.2 = []
     ∧ (run st (Fetched PageNoTable)).2 = Returned)
  ∧ (sends (run st (Fetched PageNoTbody)).1.2 = []
     ∧ (run st (Fetched PageNoTbody)).2 = Returned)
  ∧ (sends (run st (Fetched (PageRows []))).1.2 = []
     ∧ (run st (Fetched (PageRows []))).2 = Returned).
Proof.
  split_and!; try reflexivity;
    rewrite cycle_without_records by reflexivity; reflexivity.
Qed.

End CycleTheorems.

(** C2 as stated fails: after a cycle whose fetch raises, the cache built
    by the cycle before is gone, so the globals are not what they were. *)
Lemma failed_cycle_changes_state :
  ∃ st' evs,
    Sample.cycle Sample.send_all Sample.state_after_AB FetchException
    = (st', evs, Returned)
    ∧ is_Some (data_cache Sample.state_after_AB !! "A")
    ∧ data_cache st' !! "A" = None
    ∧ st' ≠ Sample.state_after_AB.
Proof.
  eexists _, _. split; [vm_compute; reflexivity|].
  split; [eexists; vm_compute; reflexivity|].
  split; [reflexivity|]. intros Heq.
  apply (f_equal (λ st, data_cache st !! "A")) in Heq.
  vm_compute in Heq. discriminate.
Qed.

(** C9 as stated fails: what the caller of [scrape_page] receives for a
    page without the table is what it receives for an empty table. *)
Lemma missing_table_looks_empty :
  ¬ (caller_view (scrape_page Sample.strip Sample.urljoin
                    Sample.state_after_AB (Fetched PageNoTable))
     ≠ caller_view (scrape_page Sample.strip Sample.urljoin
                      Sample.state_after_AB (Fetched (PageRows [])))).
Proof. intros Hne. by apply Hne. Qed.

(** ** Fan-out *)

Section FanOut.

Variable strip : string → string.
Variable urljoin : string → string → option string.
Variable dateparser_parse : string → option PyTime.parsed.
Variable now : string → PyTime.datetime.

Lemma notify_subscriber_attempts send_ok (p message : string)
    (markup : list (list button)) (u : Z) :
  Send u greeting None (send_ok p u Greeting)
    ∈ notify_subscriber send_ok p message markup u
  ∧ (send_ok p u Greeting = true →
     Send u message (Some markup) (send_ok p u Details)
       ∈ notify_subscriber send_ok p message markup u).
Proof.
  unfold notify_subscriber.
  destruct (send_ok p u Greeting), (send_ok p u Details);
    (split; [|intros ?]); try done; set_unfold; tauto.
Qed.

(** What concerns a subscriber in the events of one loop body depends on
    the outcomes of the calls made for that subscriber only. *)
Lemma events_for_notify_subscriber send_ok send_ok' (p message : string)
    (markup : list (list button)) (u v : Z) :
  (∀ s, send_ok' p u s = send_ok p u s) →
  events_for u (notify_subscriber send_ok' p message markup v)
  = events_for u (notify_subscriber send_ok p message markup v).
Proof.
  intros Hsame. unfold events_for, notify_subscriber.
  destruct (decide (v = u)) as [->|Hne].
  - by rewrite !Hsame.
  - destruct (send_ok' p v Greeting), (send_ok' p v Details),
      (send_ok p v Greeting), (send_ok p v Details);
      repeat (rewrite filter_cons; simpl;
              rewrite ?(bool_decide_false (v = u)) by done; simpl);
      done.
Qed.

Lemma events_for_notify_publication send_ok send_ok' (vd : list row)
    (subs : list Z) (p : string) (u : Z) :
  (∀ s, send_ok' p u s = send_ok p u s) →
  events_for u (notify_publication dateparser_parse now send_ok'
                  vd subs p).1
  = events_for u (notify_publication dateparser_parse now send_ok
                    vd subs p).1.
Proof.
  intros Hsame. unfold notify_publication.
  destruct (pub_details _ p) as [r|]; [|done].
  case_bool_decide; [|done].
  destruct (format_single_publication _ _ r) as [[message markup]|]; [|done].
  simpl. unfold events_for. rewrite !filter_bind.
  apply bind_ext_in. intros v _.
  by apply events_for_notify_subscriber.
Qed.

Lemma events_for_app (u : Z) (l k : list event) :
  events_for u (l ++ k) = events_for u l ++ events_for u k.
Proof. apply filter_app. Qed.

Lemma events_for_notify_all send_ok send_ok' (vd : list row)
    (subs : list Z) (new : list string) (u : Z) :
  (∀ p s, send_ok' p u s = send_ok p u s) →
  events_for u (notify_all dateparser_parse now send_ok' vd subs new).1
  = events_for u (notify_all dateparser_parse now send_ok vd subs new).1.
Proof.
  intros Hsame. induction new as [|p new IH]; [done|].
  simpl.
  pose proof (notify_publication_ending dateparser_parse now send_ok send_ok'
                vd subs p) as Hend.
  pose proof (events_for_notify_publication send_ok send_ok' vd subs p u
                (Hsame p)) as Hevs.
  destruct (notify_publication dateparser_parse now send_ok vd subs p)
    as [evs e],
    (notify_publication dateparser_parse now send_ok' vd subs p)
    as [evs' e'].
  simpl in *. subst e'. destruct e; simpl; [|done].
  by rewrite !events_for_app, Hevs, IH.
Qed.

(** C7. Whether a cycle raises, and the globals it leaves, do not depend
    on which calls of [send_message] raise: no delivery failure leaves the
    cycle.  In a cycle that returns, for every new id and every subscriber
    the first message is attempted, and the formatted record follows
    whenever that first call went through.  And what is attempted for a
    subscriber is the same under any other outcomes of the calls made for
    the other subscribers. *)
Theorem notification_fan_out_independent send_ok st resp :
  let out :=
    check_for_new_publications strip urljoin dateparser_parse now send_ok
      st resp in
  (∀ send_ok',
     let out' :=
       check_for_new_publications strip urljoin dateparser_parse now
         send_ok' st resp in
     out'.2 = out.2 ∧ out'.1.1 = out.1.1)
  ∧ (out.2 = Returned →
     ∀ (p : string) (u : Z),
       p ∈ active_ids strip urljoin resp ∖ previous_publications st →
       u ∈ subscribers st →
       Send u greeting None (send_ok p u Greeting) ∈ out.1.2
       ∧ ∃ r message markup,
           r ∈ vigente_rows strip urljoin resp ∧ row_id r = p
           ∧ format_single_publication dateparser_parse (now p) r
             = Some (message, markup)
           ∧ (send_ok p u Greeting = true →
              Send u message (Some markup) (send_ok p u Details) ∈ out.1.2))
  ∧ (∀ send_ok' (u : Z),
       (∀ p s, send_ok' p u s = send_ok p u s) →
       events_for u
         (check_for_new_publications strip urljoin dateparser_parse now
            send_ok' st resp).1.2
       = events_for u out.1.2).
Proof.
  cbv zeta.
  pose proof (check_for_new_publications_eq strip urljoin dateparser_parse
                now) as Heq.
  simpl in Heq. rewrite (Heq send_ok). split_and!.
  - intros send_ok'. rewrite (Heq send_ok'). simpl. split; [|done].
    destruct ((scrape_page strip urljoin st resp).1.2); [|done].
    apply notify_all_ending.
  - simpl. intros Hret p u Hp Hu.
    assert ((notify_all dateparser_parse now send_ok
               (vigente_rows strip urljoin resp) (elements (subscribers st))
               (elements (active_ids strip urljoin resp
                          ∖ previous_publications st))).2 = Returned)
      as Hall by (by destruct ((scrape_page strip urljoin st resp).1.2)).
    rewrite (notify_all_bind _ _ _ _ _ _ Hall).
    apply notify_all_returned in Hall. rewrite Forall_forall in Hall.
    specialize (Hall p (proj2 (elem_of_elements _ _) Hp)).
    assert (p ∈ active_ids strip urljoin resp) as Hact
      by (apply elem_of_difference in Hp; tauto).
    destruct (pub_details_active strip urljoin resp p Hact)
      as (r & Hdet & Hr & Hid).
    destruct (notify_publication_cases dateparser_parse now send_ok
                (vigente_rows strip urljoin resp)
                (elements (subscribers st)) p)
      as [Hnot|[(r' & _ & _ & Hnot)|(r' & message & markup & Hdet' & Hfmt
                                       & Hnot)]].
    + exfalso. unfold notify_publication in Hnot. rewrite Hdet in Hnot.
      pose proof (vigente_rows_long strip urljoin resp) as Hlong.
      rewrite Forall_forall in Hlong. specialize (Hlong r Hr).
      rewrite bool_decide_true in Hnot by (intros ->; simpl in Hlong; lia).
      destruct (format_single_publication _ _ r) as [[m k]|] eqn:Hfmt;
        [|discriminate].
      injection Hnot as Hnil.
      apply (f_equal length) in Hnil.
      assert (u ∈ elements (subscribers st)) as Hin
        by (by apply elem_of_elements).
      destruct (notify_subscriber_attempts send_ok p m k u) as [Hg _].
      assert (Send u greeting None (send_ok p u Greeting)
              ∈ elements (subscribers st) ≫= notify_subscriber send_ok p m k)
        as Hmem by (apply list_elem_of_bind; by exists u).
      destruct (elements (subscribers st) ≫= notify_subscriber send_ok p m k);
        [by apply elem_of_nil in Hmem | discriminate].
    + rewrite Hnot in Hall. discriminate.
    + assert (r' = r) as -> by congruence.
      destruct (notify_subscriber_attempts send_ok p message markup u)
        as [Hgreet Hdetails].
      assert (∀ ev, ev ∈ notify_subscriber send_ok p message markup u →
                ev ∈ (Logged <$> (scrape_page strip urljoin st resp).2)
                     ++ (elements (active_ids strip urljoin resp
                                   ∖ previous_publications st) ≫= λ p,
                           (notify_publication dateparser_parse now send_ok
                              (vigente_rows strip urljoin resp)
                              (elements (subscribers st)) p).1))
        as Hin.
      { intros ev Hev. apply elem_of_app. right.
        apply list_elem_of_bind. exists p.
        split; [|by apply elem_of_elements].
        rewrite Hnot. simpl. apply list_elem_of_bind. exists u.
        split; [done | by apply elem_of_elements]. }
      split; [by apply Hin|].
      exists r, message, markup. split_and!; try done.
      intros Hok. by apply Hin, Hdetails.
  - intros send_ok' u Hsame. rewrite (Heq send_ok'). simpl.
    rewrite !events_for_app. f_equal.
    by apply events_for_notify_all.
Qed.

End FanOut.

(** With chat 8 out of reach, chat 7 still gets both messages for ["A"],
    and the cycle returns. *)
Lemma notification_fan_out_independent_witness :
  (Sample.cycle Sample.send_fails_for_8 Sample.two_subscribers
     Sample.page_AB).2 = Returned
  ∧ "A" ∈ active_ids Sample.strip Sample.urljoin Sample.page_AB
          ∖ previous_publications Sample.two_subscribers
  ∧ 7 ∈ subscribers Sample.two_subscribers
  ∧ 8 ∈ subscribers Sample.two_subscribers
  ∧ Send 7 greeting None true
      ∈ (Sample.cycle Sample.send_fails_for_8 Sample.two_subscribers
           Sample.page_AB).1.2
  ∧ Send 8 greeting None false
      ∈ (Sample.cycle Sample.send_fails_for_8 Sample.two_subscribers
           Sample.page_AB).1.2.
Proof.
  assert ((Sample.cycle Sample.send_fails_for_8 Sample.two_subscribers
             Sample.page_AB).2 = Returned) as Hret
    by (vm_compute; reflexivity).
  assert ("A" ∈ active_ids Sample.strip Sample.urljoin Sample.page_AB
                ∖ previous_publications Sample.two_subscribers) as HA
    by (apply (bool_decide_unpack _); vm_compute; exact I).
  assert (7 ∈ subscribers Sample.two_subscribers) as H7
    by (apply (bool_decide_unpack _); vm_compute; exact I).
  assert (8 ∈ subscribers Sample.two_subscribers) as H8
    by (apply (bool_decide_unpack _); vm_compute; exact I).
  split; [exact Hret|]. split; [exact HA|].
  split; [exact H7|]. split; [exact H8|].
  destruct (notification_fan_out_independent Sample.strip Sample.urljoin
              Sample.dateparser_parse Sample.now Sample.send_fails_for_8
              Sample.two_subscribers Sample.page_AB)
    as (_ & Hattempts & _).
  split.
  - exact (proj1 (Hattempts Hret "A" 7 HA H7)).
  - exact (proj1 (Hattempts Hret "A" 8 HA H8)).
Defined.

(** ** Subscriber registry *)

Lemma filter_eq_NoDup (x : Z) (l : list Z) :
  NoDup l → x ∈ l → length (filter (λ y, y = x) l) = 1%nat.
Proof.
  induction 1 as [|y l Hy Hnd IH]; intros Hin.
  - by apply not_elem_of_nil in Hin.
  - rewrite filter_cons. destruct (decide (y = x)) as [->|Hne].
    + simpl. f_equal. apply length_zero_iff_nil.
      apply elem_of_nil_inv. intros z [-> Hz]%list_elem_of_filter. done.
    + apply elem_of_cons in Hin as [->|Hin]; [done|]. by apply IH.
Qed.

(** C8. Subscribing a recipient twice leaves the registry as after the
    first time, with the recipient in it exactly once; unsubscribing a
    recipient that is not in the registry changes nothing; both handlers
    are total, neither raises. *)
Theorem subscribe_unsubscribe_idempotent :
  (∀ st (x : Z),
     let once := (subscribe st x).1 in
     let twice := (subscribe once x).1 in
     twice = once
     ∧ x ∈ subscribers twice
     ∧ length (filter (λ y, y = x) (elements (subscribers twice))) = 1%nat
     ∧ subscribers twice = {[ x ]} ∪ subscribers st)
  ∧ (∀ st (y : Z), y ∉ subscribers st → (unsubscribe st y).1 = st).
Proof.
  split.
  - intros [subs prev cache] x. simpl. unfold set_subscribers. simpl.
    assert ({[x]} ∪ ({[x]} ∪ subs) = {[x]} ∪ subs) as Hsame.
    { apply set_eq. intros z. rewrite !elem_of_union. tauto. }
    rewrite Hsame. split_and!; try done.
    + apply elem_of_union_l, elem_of_singleton. done.
    + apply filter_eq_NoDup; [apply NoDup_elements|].
      apply elem_of_elements, elem_of_union_l, elem_of_singleton. done.
  - intros [subs prev cache] y Hy. simpl in *. unfold set_subscribers. simpl.
    f_equal. apply set_eq. intros z.
    rewrite elem_of_difference, elem_of_singleton.
    split; [tauto|]. intros Hz. split; [done|]. by intros ->.
Qed.

Lemma subscribe_unsubscribe_idempotent_witness :
  (8 ∉ subscribers Sample.state_after_AB)
  ∧ (unsubscribe Sample.state_after_AB 8).1 = Sample.state_after_AB.
Proof.
  assert (8 ∉ subscribers Sample.state_after_AB) as H8.
  { simpl. intros Hin%elem_of_singleton. discriminate. }
  split; [exact H8|].
  exact (proj2 subscribe_unsubscribe_idempotent Sample.state_after_AB 8 H8).
Defined.

(** ** Remaining time in the message *)

(** A record whose expiry text parses to a datetime without a zone is
    formatted with the whole minutes of [max(0, expires - now)] split into
    days, hours and minutes: an expiry 2 days, 3 hours and 10 minutes
    ahead reads "2 días, 3 horas, 10 minutos", an expiry not after [now]
    reads "0 días, 0 horas, 0 minutos"; a record whose expiry text does
    not parse is formatted all the same, with "Desconocido" in that
    place. *)
Theorem format_single_publication_remaining_time
    (dateparser_parse : string → option PyTime.parsed)
    (now : PyTime.datetime) (r : row) (r4 : string) :
  (7 ≤ length r)%nat →
  r !! 4%nat = Some r4 →
  (∀ d, dateparser_parse r4 ≠ Some (PyTime.Aware d)) →
  ∃ message markup pre post shown,
    format_single_publication dateparser_parse now r = Some (message, markup)
    ∧ message = pre +:+ "⏱ <b>Tiempo disponible:</b> " +:+ shown +:+ post
    ∧ available_time now (dateparser_parse r4) = Some shown
    ∧ (∀ e, dateparser_parse r4 = Some (PyTime.Naive e) →
         ∃ d h m : Z,
           shown = pretty d +:+ " días, " +:+ pretty h +:+ " horas, "
                     +:+ pretty m +:+ " minutos"
           ∧ 0 ≤ d ∧ 0 ≤ h < 24 ∧ 0 ≤ m < 60
           ∧ (d * 1440 + h * 60 + m) * 60000000 ≤ Z.max 0 (e - now)
             < (d * 1440 + h * 60 + m + 1) * 60000000)
    ∧ (∀ e, dateparser_parse r4 = Some (PyTime.Naive e) →
         e = now + ((2 * 24 + 3) * 60 + 10) * 60 * 1000000 →
         shown = "2 días, 3 horas, 10 minutos")
    ∧ (∀ e, dateparser_parse r4 = Some (PyTime.Naive e) → e ≤ now →
         shown = "0 días, 0 horas, 0 minutos")
    ∧ (dateparser_parse r4 = None → shown = "Desconocido").
Proof.
  intros Hlen Hr4 Hzone.
  destruct (format_single_publication_long dateparser_parse now r Hlen)
    as (r4' & Hr4' & Hfmt).
  assert (r4' = r4) as -> by congruence.
  destruct (available_time now (dateparser_parse r4)) as [shown|] eqn:Hav;
    cycle 1.
  { apply available_time_raises in Hav as [d Hd]. by destruct (Hzone d). }
  destruct Hfmt as (message & markup & pre & post & Hfmt & Hmsg).
  exists message, markup, pre, post, shown.
  split_and!; try done.
  - intros e He. rewrite He in Hav.
    destruct (available_time_parsed now e) as (d & h & m & Hshown & Hrest).
    exists d, h, m. split; [congruence | exact Hrest].
  - intros e He ->. rewrite He in Hav.
    pose proof (available_time_ahead now) as Hahead.
    unfold PyTime.us_per_second in Hahead. congruence.
  - intros e He Hle. rewrite He in Hav.
    pose proof (available_time_past now e Hle). congruence.
  - intros Hnone. rewrite Hnone in Hav. simpl in Hav. congruence.
Qed.

Lemma format_single_publication_remaining_time_witness :
  let r : row :=
    ["A"; "Servicio de mantenimiento"; "Ver"; "01/01/2025 00:00:00";
     "03/01/2025 03:10:00"; "Vigente"; "No disponible"] in
  (7 ≤ length r)%nat
  ∧ r !! 4%nat = Some "03/01/2025 03:10:00"
  ∧ (∀ d, Sample.dateparser_parse "03/01/2025 03:10:00"
          ≠ Some (PyTime.Aware d))
  ∧ ∃ message markup pre post,
      format_single_publication Sample.dateparser_parse 0 r
      = Some (message, markup)
      ∧ message = pre +:+ "⏱ <b>Tiempo disponible:</b> "
                      +:+ "2 días, 3 horas, 10 minutos" +:+ post.
Proof.
  cbv zeta.
  assert (7 ≤ 7)%nat as Hlen by lia.
  assert (∀ d, Sample.dateparser_parse "03/01/2025 03:10:00"
               ≠ Some (PyTime.Aware d)) as Hzone by (intros d; discriminate).
  split; [exact Hlen|]. split; [reflexivity|]. split; [exact Hzone|].
  destruct (format_single_publication_remaining_time Sample.dateparser_parse 0
              ["A"; "Servicio de mantenimiento"; "Ver"; "01/01/2025 00:00:00";
               "03/01/2025 03:10:00"; "Vigente"; "No disponible"]
              "03/01/2025 03:10:00" Hlen eq_refl Hzone)
    as (message & markup & pre & post & shown & Hfmt & Hmsg & _ & _ & Hahead
        & _).
  exists message, markup, pre, post. split; [exact Hfmt|].
  rewrite Hmsg, (Hahead _ eq_refl eq_refl). reflexivity.
Defined.

(** The formatted sample record, by name. *)
Lemma sample_formatted (r0 r6 : string) :
  ∃ message markup pre post,
    format_single_publication Sample.dateparser_parse 0
      [r0; "Servicio de mantenimiento"; "Ver"; "01/01/2025 00:00:00";
       "03/01/2025 03:10:00"; "Vigente"; r6]
    = Some (message, markup)
    ∧ message = pre +:+ "⏱ <b>Tiempo disponible:</b> "
                    +:+ "2 días, 3 horas, 10 minutos" +:+ post.
Proof.
  destruct (format_single_publication_long Sample.dateparser_parse 0
              [r0; "Servicio de mantenimiento"; "Ver";
               "01/01/2025 00:00:00"; "03/01/2025 03:10:00"; "Vigente"; r6])
    as (r4 & Hr4 & Hfmt); [simpl; lia|].
  injection Hr4 as <-.
  change (available_time 0 (Sample.dateparser_parse "03/01/2025 03:10:00"))
    with (Some "2 días, 3 horas, 10 minutos") in Hfmt.
  exact Hfmt.
Defined.

(** C6. A record of seven fields whose expiry text names a time zone:
    whenever [dateparser.parse] makes an aware datetime of that text, the
    expiry parses, and the formatter shows no remaining time for the
    record but raises, at any reading of the clock. *)
Theorem format_single_publication_zone_expiry
    (dateparser_parse : string → option PyTime.parsed)
    (local : PyTime.datetime) :
  let r : row :=
    ["Z"; "Servicio de mantenimiento"; "Ver"; "01/01/2025 00:00:00";
     "03/01/2025 03:10:00 EST"; "Vigente"; "No disponible"] in
  dateparser_parse "03/01/2025 03:10:00 EST" = Some (PyTime.Aware local) →
  (7 ≤ length r)%nat
  ∧ r !! 4%nat = Some "03/01/2025 03:10:00 EST"
  ∧ is_Some (dateparser_parse "03/01/2025 03:10:00 EST")
  ∧ ∀ now, format_single_publication dateparser_parse now r = None.
Proof.
  cbv zeta. intros Hzone. split; [simpl; lia|]. split; [reflexivity|].
  split; [by eexists|].
  intros now. apply format_single_publication_none. right.
  by exists "03/01/2025 03:10:00 EST", local.
Qed.

(** With a parser that reads the zone, the record raises; the same record
    with the zone left out is formatted, with
    "2 días, 3 horas, 10 minutos" at the clock reading 0. *)
Lemma format_single_publication_zone_expiry_witness :
  let r : row :=
    ["Z"; "Servicio de mantenimiento"; "Ver"; "01/01/2025 00:00:00";
     "03/01/2025 03:10:00 EST"; "Vigente"; "No disponible"] in
  Sample.dateparser_parse "03/01/2025 03:10:00 EST"
  = Some (PyTime.Aware (((2 * 24 + 3) * 60 + 10) * 60 * 1000000))
  ∧ (∀ now, format_single_publication Sample.dateparser_parse now r = None)
  ∧ ∃ message markup pre post,
      format_single_publication Sample.dateparser_parse 0
        (<[4%nat := "03/01/2025 03:10:00"]> r) = Some (message, markup)
      ∧ message = pre +:+ "⏱ <b>Tiempo disponible:</b> "
                      +:+ "2 días, 3 horas, 10 minutos" +:+ post.
Proof.
  cbv zeta. split; [reflexivity|]. split.
  - exact (proj2 (proj2 (proj2
             (format_single_publication_zone_expiry Sample.dateparser_parse
                (((2 * 24 + 3) * 60 + 10) * 60 * 1000000) eq_refl)))).
  - exact (sample_formatted "Z" "No disponible").
Defined.

(** ** Drive links *)

Module SplitFacts.
Import PyStr.

Local Arguments String.append !_ _ / : simpl nomatch.

Lemma split_no_sep (sep : Ascii.ascii) (a : string) :
  count sep a = 0%nat → split sep a = [a].
Proof.
  induction a as [|c a IH]; simpl; [done|].
  destruct (Ascii.eqb c sep); [done|]. intros Hc. by rewrite IH.
Qed.

Lemma split_app_sep (sep : Ascii.ascii) (a b : string) :
  count sep a = 0%nat →
  split sep (a +:+ String sep b) = a :: split sep b.
Proof.
  induction a as [|c a IH]; simpl.
  - intros _. by rewrite Ascii.eqb_refl.
  - destruct (Ascii.eqb c sep); [done|]. intros Hc. by rewrite IH.
Qed.

(** The element of index 3 of a path [/file/d/<id>] or
    [/file/d/<id>/...]. *)
Lemma split_file_d_id (fid rest : string) :
  count "/" fid = 0%nat →
  split "/" ("/file/d/" +:+ fid) !! 3%nat = Some fid
  ∧ split "/" ("/file/d/" +:+ fid +:+ String "/" rest) !! 3%nat = Some fid.
Proof.
  intros Hfid.
  change ("/file/d/" +:+ fid)
    with ("" +:+ String "/" ("file" +:+ String "/" ("d" +:+ String "/" fid))).
  change ("/file/d/" +:+ fid +:+ String "/" rest)
    with ("" +:+ String "/" ("file" +:+ String "/"
            ("d" +:+ String "/" (fid +:+ String "/" rest)))).
  rewrite !split_app_sep by done. by rewrite split_no_sep.
Qed.

End SplitFacts.

Section DriveFacts.

Variable urlparse : string → option ParseResult.
Variable parse_qs : string → gmap string (list string).

Abbreviation convert := (convert_drive_url urlparse parse_qs).

(** A text [urlparse] raises on makes the function raise. *)
Lemma convert_drive_url_unparsed (u : string) :
  urlparse u = None → convert u = None.
Proof. intros Hnone. unfold convert_drive_url. by rewrite Hnone. Qed.

(** A URL whose host is not a drive host comes back as it is. *)
Lemma convert_drive_url_other_host (u : string) (parsed_url : ParseResult) :
  urlparse u = Some parsed_url →
  PyStr.str_in "drive.google.com" (netloc parsed_url) = false →
  convert u = Some u.
Proof.
  intros Hparse Hhost. unfold convert_drive_url.
  rewrite Hparse. simpl. by rewrite Hhost.
Qed.

(** A drive URL with neither a [/file/d/] nor an [/open] path comes back as
    it is. *)
Lemma convert_drive_url_other_path (u : string) (parsed_url : ParseResult) :
  urlparse u = Some parsed_url →
  PyStr.str_in "/file/d/" (path parsed_url) = false →
  PyStr.str_in "/open" (path parsed_url) = false →
  convert u = Some u.
Proof.
  intros Hparse Hfile Hopen. unfold convert_drive_url, drive_file_id.
  rewrite Hparse. simpl. rewrite Hfile, Hopen.
  by destruct (PyStr.str_in "drive.google.com" _).
Qed.

(** A path that starts with [/file/d/<id>] gives the download URL of that
    id. *)
Lemma convert_drive_url_file_first (u fid tail : string)
    (parsed_url : ParseResult) :
  urlparse u = Some parsed_url →
  PyStr.str_in "drive.google.com" (netloc parsed_url) = true →
  PyStr.count "/" fid = 0%nat → fid ≠ "" →
  path parsed_url = "/file/d/" +:+ fid +:+ tail →
  tail = "" ∨ (∃ rest, tail = String "/" rest) →
  convert u = Some (download_url fid).
Proof.
  intros Hparse Hhost Hfid Hne Hpath Htail.
  unfold convert_drive_url, drive_file_id.
  rewrite Hparse. simpl. rewrite Hhost, Hpath.
  assert (PyStr.str_in "/file/d/" ("/file/d/" +:+ fid +:+ tail) = true)
    as ->.
  { apply PyStrFacts.str_in_app. by exists "", (fid +:+ tail). }
  destruct (SplitFacts.split_file_d_id fid "" Hfid) as [Hend _].
  destruct Htail as [->|[rest ->]].
  - assert (fid +:+ "" = fid) as ->.
    { clear. induction fid as [|c s IH]; [done|].
      cbv [String.append]; fold String.append. by rewrite IH. }
    rewrite Hend. simpl. by destruct fid.
  - destruct (SplitFacts.split_file_d_id fid rest Hfid) as [_ ->].
    simpl. by destruct fid.
Qed.

(** An [/open] path with a non-empty first [id] value gives the download
    URL of that value. *)
Lemma convert_drive_url_open (u fid : string) (more : list string)
    (parsed_url : ParseResult) :
  urlparse u = Some parsed_url →
  PyStr.str_in "drive.google.com" (netloc parsed_url) = true →
  PyStr.str_in "/file/d/" (path parsed_url) = false →
  PyStr.str_in "/open" (path parsed_url) = true →
  parse_qs (query parsed_url) !! "id" = Some (fid :: more) →
  fid ≠ "" →
  convert u = Some (download_url fid).
Proof.
  intros Hparse Hhost Hfile Hopen Hid Hne.
  unfold convert_drive_url, drive_file_id.
  rewrite Hparse. simpl. rewrite Hhost, Hfile, Hopen, Hid. simpl.
  by destruct fid.
Qed.

(** Once [urlparse] has returned, the function raises nothing as long as
    [parse_qs] lists at least one value per name, as the library does. *)
Lemma convert_drive_url_parsed (u : string) (parsed_url : ParseResult) :
  (∀ q values, parse_qs q !! "id" = Some values → values ≠ []) →
  urlparse u = Some parsed_url →
  is_Some (convert u).
Proof.
  intros Hqs Hparse. unfold convert_drive_url, drive_file_id.
  rewrite Hparse. simpl.
  destruct (PyStr.str_in "drive.google.com" _); [|by eexists].
  destruct (PyStr.str_in "/file/d/" _) eqn:Hfile.
  - destruct (PyStrFacts.split_file_d _ Hfile) as [x ->]. simpl.
    destruct (PyStr.truthy x); by eexists.
  - destruct (PyStr.str_in "/open" _); [|by eexists].
    destruct (parse_qs _ !! "id") as [[|v vs]|] eqn:Hid; simpl.
    + by apply Hqs in Hid.
    + destruct (PyStr.truthy v); by eexists.
    + by eexists.
Qed.

(** What the function returns, when it returns. *)
Lemma convert_drive_url_shape (u v : string) :
  convert u = Some v →
  is_Some (urlparse u) ∧ (v = u ∨ ∃ fid, fid ≠ "" ∧ v = download_url fid).
Proof.
  unfold convert_drive_url.
  destruct (urlparse u) as [parsed_url|]; [|done]. simpl.
  intros Hv. split; [by eexists|]. revert Hv.
  destruct (PyStr.str_in "drive.google.com" _); [|intros [= <-]; by left].
  destruct (drive_file_id parse_qs parsed_url) as [[fid|]|]; simpl;
    [| intros [= <-]; by left | done].
  destruct fid as [|c fid]; simpl; intros [= <-]; [by left|].
  right. by exists (String c fid).
Qed.

End DriveFacts.

(** The example of the specification. *)
Example convert_drive_url_view netloc_valid parse_qs :
  convert_drive_url (UrlModel.urlparse netloc_valid) parse_qs
    "https://drive.google.com/file/d/XYZ123/view"
  = Some "https://drive.google.com/uc?export=download&id=XYZ123".
Proof. vm_compute. reflexivity. Qed.

Example convert_drive_url_elsewhere netloc_valid parse_qs :
  convert_drive_url (UrlModel.urlparse netloc_valid) parse_qs
    "https://sistemas.undc.edu.pe/bienesyservicios/bases.pdf"
  = Some "https://sistemas.undc.edu.pe/bienesyservicios/bases.pdf".
Proof. vm_compute. reflexivity. Qed.

(** A host that opens a bracket without closing it: [urlparse] raises, and
    the function with it. *)
Example convert_drive_url_bracket netloc_valid parse_qs :
  convert_drive_url (UrlModel.urlparse netloc_valid) parse_qs
    "https://[drive.google.com/file/d/x" = None.
Proof. vm_compute. reflexivity. Qed.

(** C5. The host is a drive host and the path contains [/file/d/XYZ123],
    after an account prefix; the function reads the id at a fixed position
    of the path and returns the download URL of ["file"] instead of that of
    ["XYZ123"]. *)
Theorem convert_drive_url_account_prefix netloc_valid parse_qs :
  let u := "https://drive.google.com/a/example.com/file/d/XYZ123/view" in
  ∃ parsed_url,
    UrlModel.urlparse netloc_valid u = Some parsed_url
    ∧ PyStr.str_in "drive.google.com" (netloc parsed_url) = true
    ∧ (∃ a b, path parsed_url = a +:+ "/file/d/XYZ123" +:+ b)
    ∧ convert_drive_url (UrlModel.urlparse netloc_valid) parse_qs u
      = Some "https://drive.google.com/uc?export=download&id=file"
    ∧ convert_drive_url (UrlModel.urlparse netloc_valid) parse_qs u
      ≠ Some (download_url "XYZ123").
Proof.
  cbv zeta.
  assert (UrlModel.urlparse netloc_valid
            "https://drive.google.com/a/example.com/file/d/XYZ123/view"
          = Some (mk_ParseResult "https" "drive.google.com"
                    "/a/example.com/file/d/XYZ123/view" "" "" ""))
    as Hparse by (vm_compute; reflexivity).
  assert (convert_drive_url (UrlModel.urlparse netloc_valid) parse_qs
            "https://drive.google.com/a/example.com/file/d/XYZ123/view"
          = Some "https://drive.google.com/uc?export=download&id=file")
    as Hrun by (vm_compute; reflexivity).
  eexists. split; [exact Hparse|]. split.
  { vm_compute. reflexivity. }
  split.
  { by exists "/a/example.com", "/view". }
  split; [exact Hrun|]. rewrite Hrun. discriminate.
Qed.

(** * Further properties of the code *)

(** ** The cache built by [scrape_page] *)

Section CacheFacts.

Variable strip : string → string.
Variable urljoin : string → string → option string.

(** The globals after [scrape_page]: only [data_cache] is replaced, by a
    cache that the response alone determines. *)
Lemma scrape_page_state st resp :
  (scrape_page strip urljoin st resp).1.1
  = set_data_cache st
      (data_cache (scrape_page strip urljoin initial_state resp).1.1).
Proof. by destruct resp as [|[| |rows]]. Qed.

Lemma row_entry_fields (cols : tr) (p : string * cache_entry) :
  row_entry strip urljoin cols = Some p →
  ce_row p.2 !! 0%nat = Some p.1
  ∧ ce_row p.2 !! 1%nat = Some (ce_description p.2)
  ∧ ce_row p.2 !! 3%nat = Some (ce_published_date p.2)
  ∧ ce_row p.2 !! 4%nat = Some (ce_expires_date p.2)
  ∧ ce_row p.2 !! 5%nat = Some (ce_status p.2)
  ∧ last (ce_row p.2) = Some (ce_pdf_url p.2)
  ∧ length (ce_row p.2) = S (length cols).
Proof.
  unfold row_entry. case_bool_decide; [|done].
  do 6 (destruct cols as [|? cols]; [done|]).
  simpl. destruct (pdf_link_of urljoin _) as [link|]; [|done].
  intros [= <-]. simpl. split_and!; try done.
  - rewrite !last_cons, last_app. simpl.
    by destruct (last (cell_text strip <$> cols)).
  - rewrite length_app, length_fmap. simpl. lia.
Qed.

(** Whether [scrape_page] returns or raises, the cache holds the entries
    of rows of the page, stored in the order of the rows. *)
Lemma scrape_page_stored st resp :
  ∃ (l : list tr) entries,
    Forall2 (λ (cols : tr) p, row_entry strip urljoin cols = Some p) l entries
    ∧ data_cache (scrape_page strip urljoin st resp).1.1 = store ∅ entries
    ∧ ∀ data : list row,
        (scrape_page strip urljoin st resp).1.2 = Some data →
        data = (ce_row ∘ snd) <$> entries.
Proof.
  destruct resp as [|[| |rows]];
    try (exists [], []; split_and!; [constructor | done | by intros ? [= <-]]).
  simpl. unfold scrape_rows.
  destruct (mapM (row_entry strip urljoin) (long_rows rows)) as [es|] eqn:Hes.
  - rewrite (scrape_rows_from_returns _ _ _ _ es Hes). simpl.
    exists (long_rows rows), es.
    split_and!; [by apply mapM_Some | done | by intros ? [= <-]].
  - destruct (scrape_rows_from_raises strip urljoin ([], ∅) rows Hes)
      as (before & cols & after & entries & _ & Hbefore & _ & ->).
    simpl. exists before, entries.
    split_and!; [by apply mapM_Some | done | done].
Qed.

(** An entry of the cache comes from a row of the page, and its record is
    among the returned ones when [scrape_page] returns. *)
Lemma cache_entry_origin st resp (k : string) (e : cache_entry) :
  data_cache (scrape_page strip urljoin st resp).1.1 !! k = Some e →
  ∃ cols : tr,
    row_entry strip urljoin cols = Some (k, e)
    ∧ ∀ data : list row,
        (scrape_page strip urljoin st resp).1.2 = Some data →
        ce_row e ∈ data.
Proof.
  destruct (scrape_page_stored st resp) as (l & entries & Hes & -> & Hdata).
  rewrite store_lookup, lookup_empty.
  destruct (last (filter _ _)) as [p|] eqn:Hlast; [|done].
  intros [= <-].
  apply last_Some_elem_of, list_elem_of_filter in Hlast as [Hk Hp].
  destruct (proj1 (list_elem_of_lookup _ _) Hp) as [i Hi].
  destruct (Forall2_lookup_r _ _ _ _ _ Hes Hi) as (cols & _ & Hcols).
  exists cols. destruct p as [k' e']. simpl in *. subst k'.
  split; [done|]. intros data ->%Hdata.
  apply list_elem_of_fmap. by exists (k, e').
Qed.

(** X1. Every entry of [data_cache] agrees with the record it was built
    from, also in the cache a [scrape_page] leaves when it raises: the
    first field of that record is the key, its second, fourth, fifth and
    sixth fields are the description, the two dates and the status of the
    entry, and its last field is the document link of the entry; when
    [scrape_page] returns, that record is among the returned ones. *)
Theorem data_cache_entry_consistent st resp (k : string) (e : cache_entry) :
  data_cache (scrape_page strip urljoin st resp).1.1 !! k = Some e →
  (∀ data : list row,
     (scrape_page strip urljoin st resp).1.2 = Some data → ce_row e ∈ data)
  ∧ ce_row e !! 0%nat = Some k
  ∧ ce_row e !! 1%nat = Some (ce_description e)
  ∧ ce_row e !! 3%nat = Some (ce_published_date e)
  ∧ ce_row e !! 4%nat = Some (ce_expires_date e)
  ∧ ce_row e !! 5%nat = Some (ce_status e)
  ∧ last (ce_row e) = Some (ce_pdf_url e)
  ∧ (7 ≤ length (ce_row e))%nat.
Proof.
  intros (cols & Hentry & Hin)%cache_entry_origin.
  destruct (row_entry_fields cols (k, e) Hentry)
    as (H0 & H1 & H3 & H4 & H5 & Hlast & Hlen).
  simpl in *. split_and!; try done.
  rewrite Hlen. apply (row_entry_long strip urljoin) in Hentry. lia.
Qed.

Lemma row_record_eq (cols : tr) (r : row) :
  row_record strip urljoin cols = Some r →
  (6 ≤ length cols)%nat
  ∧ ∃ c2 link,
      cols !! 2%nat = Some c2
      ∧ pdf_link_of urljoin c2 = Some link
      ∧ r = (cell_text strip <$> cols) ++ [link].
Proof.
  unfold row_record, row_entry. case_bool_decide as Hlen; [|done].
  split; [done|].
  destruct cols as [|c0 [|c1 [|c2 [|c3 [|c4 [|c5 cols]]]]]];
    simpl in Hlen; try lia.
  simpl in H. destruct (pdf_link_of urljoin c2) as [link|] eqn:Hlink;
    [|done].
  simpl in H. injection H as <-. by exists c2, link.
Qed.

(** X2. A returned record holds the stripped text of every cell of its
    row, in order, followed by the document link taken from the third
    cell: it is one field longer than the row has cells.  Its field 6,
    the one [format_single_publication] reads as the link, is the link
    when the row has exactly six cells and the text of the seventh cell
    when the row has more. *)
Theorem scrape_page_record_fields st (rows : list tr) (data : list row) :
  (scrape_page strip urljoin st (Fetched (PageRows rows))).1.2 = Some data →
  Forall2
    (λ (cols : tr) (r : row),
       length r = S (length cols)
       ∧ (∀ i c, cols !! i = Some c → r !! i = Some (cell_text strip c))
       ∧ (∃ c2 link,
            cols !! 2%nat = Some c2
            ∧ pdf_link_of urljoin c2 = Some link
            ∧ r !! length cols = Some link
            ∧ (length cols = 6%nat → r !! 6%nat = Some link))
       ∧ (∀ c6, cols !! 6%nat = Some c6 →
                r !! 6%nat = Some (cell_text strip c6)))
    (filter (λ cols : tr, 6 ≤ length cols)%nat rows) data.
Proof.
  intros (entries & Hes%entries_of_rows & -> & _)%scrape_page_returns.
  eapply Forall2_impl; [by apply long_rows_records|].
  intros cols r (Hlen & c2 & link & Hc2 & Hlink & ->)%row_record_eq.
  assert (∀ i c, cols !! i = Some c →
            ((cell_text strip <$> cols) ++ [link]) !! i
            = Some (cell_text strip c)) as Hcell.
  { intros i c Hi. rewrite lookup_app_l.
    - by rewrite list_lookup_fmap, Hi.
    - rewrite length_fmap. by eapply lookup_lt_Some. }
  assert (((cell_text strip <$> cols) ++ [link]) !! length cols = Some link)
    as Hlast.
  { rewrite lookup_app_r by (rewrite length_fmap; lia).
    rewrite length_fmap, Nat.sub_diag. done. }
  split_and!.
  - rewrite length_app, length_fmap. simpl. lia.
  - done.
  - exists c2, link. split_and!; try done.
    intros Hsix. by rewrite <- Hsix.
  - intros c6. apply Hcell.
Qed.

(** X3. The cache is rebuilt from the response alone: whatever the globals
    held before, [scrape_page] leaves the same cache, and after a
    [scrape_page] that returns, an id that none of the returned records
    carries is not in it. *)
Theorem scrape_page_cache_rebuilt st st' resp :
  data_cache (scrape_page strip urljoin st resp).1.1
  = data_cache (scrape_page strip urljoin st' resp).1.1
  ∧ ∀ (data : list row) (k : string),
      (scrape_page strip urljoin st resp).1.2 = Some data →
      k ∉ row_id <$> data →
      data_cache (scrape_page strip urljoin st resp).1.1 !! k = None.
Proof.
  split; [by rewrite (scrape_page_state st), (scrape_page_state st')|].
  intros data k Hdata Hk.
  destruct (data_cache _ !! k) as [e|] eqn:He; [|done].
  exfalso. apply Hk.
  destruct (cache_entry_origin st resp k e He) as (cols & Hentry & Hin).
  apply list_elem_of_fmap. exists (ce_row e). split; [|by apply Hin].
  symmetry. exact (row_entry_id strip urljoin cols (k, e) Hentry).
Qed.

Lemma filter_same_key {A B} `{EqDecision B} (f : A → B) (l : list A) (x : A) :
  NoDup (f <$> l) → x ∈ l → filter (λ y, f y = f x) l = [x].
Proof.
  induction l as [|y l IH]; intros Hnd Hin.
  - by apply elem_of_nil in Hin.
  - rewrite fmap_cons in Hnd. apply NoDup_cons in Hnd as [Hy Hnd].
    rewrite filter_cons. apply elem_of_cons in Hin as [->|Hin].
    + rewrite decide_True by done. f_equal.
      apply elem_of_nil_inv. intros z [Hz Hzl]%list_elem_of_filter.
      apply Hy. rewrite <- Hz. apply list_elem_of_fmap. by exists z.
    + rewrite decide_False; [by apply IH|].
      intros Heq. apply Hy. rewrite Heq.
      apply list_elem_of_fmap. by exists x.
Qed.

Lemma cache_row_last st resp (data : list row) (k : string) :
  (scrape_page strip urljoin st resp).1.2 = Some data →
  ce_row <$> data_cache (scrape_page strip urljoin st resp).1.1 !! k
  = last (filter (λ r : row, row_id r = k) data).
Proof.
  intros (entries & -> & -> & Hids & _)%scrape_page_cache.
  rewrite store_lookup, lookup_empty.
  rewrite filter_ids_entries by done.
  rewrite fmap_last. by destruct (last (filter _ _)).
Qed.

Lemma cache_dom_ids st resp (data : list row) :
  (scrape_page strip urljoin st resp).1.2 = Some data →
  dom (data_cache (scrape_page strip urljoin st resp).1.1)
  = list_to_set (row_id <$> data).
Proof.
  intros (entries & -> & -> & Hids & _)%scrape_page_cache.
  rewrite store_dom, dom_empty_L, (entries_ids _ Hids).
  apply (left_id_L ∅ (∪)).
Qed.

(** X4. When [scrape_page] returns records whose ids are pairwise
    different, every returned record can be read back from the cache
    under its id, and the cache has as many entries as records were
    returned. *)
Theorem scrape_page_lookup_unique st resp (data : list row) :
  (scrape_page strip urljoin st resp).1.2 = Some data →
  NoDup (row_id <$> data) →
  (∀ r : row,
     r ∈ data →
     ce_row <$> data_cache (scrape_page strip urljoin st resp).1.1
                  !! row_id r = Some r)
  ∧ size (data_cache (scrape_page strip urljoin st resp).1.1) = length data.
Proof.
  intros Hdata Hnd. split.
  - intros r Hr. rewrite (cache_row_last _ _ data) by done.
    by rewrite (filter_same_key row_id _ r Hnd Hr).
  - rewrite <- size_dom, (cache_dom_ids _ _ data) by done.
    rewrite size_list_to_set by done. by rewrite length_fmap.
Qed.

(** X24. A page with a row of at least six cells whose link [urljoin]
    raises on: [scrape_page] returns nothing and logs nothing, and leaves
    in [data_cache] the entries of the rows before the first such row, the
    cache it builds on the page cut before that row; the other two
    globals are as they were. *)
Theorem scrape_page_raises_partial_cache st (rows : list tr) :
  let out := scrape_page strip urljoin st (Fetched (PageRows rows)) in
  ¬ links_join strip urljoin rows →
  out.1.2 = None
  ∧ out.2 = []
  ∧ subscribers out.1.1 = subscribers st
  ∧ previous_publications out.1.1 = previous_publications st
  ∧ ∃ (before : list tr) (cols : tr) (after : list tr),
      filter (λ cols : tr, 6 ≤ length cols)%nat rows = before ++ cols :: after
      ∧ links_join strip urljoin before
      ∧ row_record strip urljoin cols = None
      ∧ out.1.1
        = (scrape_page strip urljoin st (Fetched (PageRows before))).1.1.
Proof.
  cbv zeta. intros Hbad.
  assert (mapM (row_entry strip urljoin) (long_rows rows) = None) as Hes.
  { destruct (mapM _ _) as [es|] eqn:Hes; [|done].
    destruct Hbad. apply links_join_entries. by eexists. }
  destruct (scrape_rows_from_raises strip urljoin ([], ∅) rows Hes)
    as (before & cols & after & entries & Hlong & Hbefore & Hcols & Hrun).
  simpl. unfold scrape_rows. rewrite Hrun. simpl.
  split_and!; try done.
  exists before, cols, after.
  assert (long_rows before = before) as Hsame.
  { assert (Forall (λ cols : tr, 6 ≤ length cols)%nat (before ++ cols :: after))
      as Hall.
    { rewrite <- Hlong. apply Forall_forall.
      by intros x [? _]%list_elem_of_filter. }
    apply Forall_app in Hall as [Hall _].
    unfold long_rows. clear -Hall.
    induction Hall as [|x l Hx _ IH]; [done|].
    rewrite filter_cons, decide_True by done. by rewrite IH. }
  split_and!.
  - done.
  - apply links_join_entries. rewrite Hsame. by eexists.
  - unfold row_record. by rewrite Hcols.
  - rewrite <- Hsame in Hbefore.
    by rewrite (scrape_rows_from_returns _ _ _ _ entries Hbefore).
Qed.

End CacheFacts.

Lemma data_cache_entry_consistent_witness :
  let out := scrape_page Sample.strip Sample.urljoin initial_state
               Sample.page_AB in
  ∃ e data,
    data_cache out.1.1 !! "A" = Some e
    ∧ out.1.2 = Some data
    ∧ ce_row e ∈ data
    ∧ ce_row e !! 0%nat = Some "A"
    ∧ last (ce_row e) = Some (ce_pdf_url e).
Proof.
  cbv zeta.
  assert (is_Some (data_cache (scrape_page Sample.strip Sample.urljoin
                                 initial_state Sample.page_AB).1.1 !! "A"))
    as [e He] by (eexists; vm_compute; reflexivity).
  assert (is_Some (scrape_page Sample.strip Sample.urljoin initial_state
                     Sample.page_AB).1.2) as [data Hdata]
    by (eexists; vm_compute; reflexivity).
  exists e, data. split; [exact He|]. split; [exact Hdata|].
  destruct (data_cache_entry_consistent Sample.strip Sample.urljoin
              initial_state Sample.page_AB "A" e He)
    as (Hin & H0 & _ & _ & _ & _ & Hlast & _).
  split; [exact (Hin data Hdata)|]. split; [exact H0|]. exact Hlast.
Defined.

Lemma scrape_page_record_fields_witness :
  ∃ data,
    (scrape_page Sample.strip Sample.urljoin initial_state
       Sample.page_AB).1.2 = Some data
    ∧ Forall (λ r : row, length r = 7%nat) data.
Proof.
  assert (is_Some (scrape_page Sample.strip Sample.urljoin initial_state
                     Sample.page_AB).1.2) as [data Hdata]
    by (eexists; vm_compute; reflexivity).
  exists data. split; [exact Hdata|].
  pose proof (scrape_page_record_fields Sample.strip Sample.urljoin
                initial_state _ data Hdata) as Hall.
  assert (filter (λ cols : tr, 6 ≤ length cols)%nat
            [Sample.cells "A" "Vigente"; Sample.cells "B" "Vigente"]
          = [Sample.cells "A" "Vigente"; Sample.cells "B" "Vigente"])
    as Hlong by (vm_compute; reflexivity).
  rewrite Hlong in Hall.
  eapply Forall2_Forall_r; [exact Hall|].
  repeat constructor; intros r (Hlen & _); rewrite Hlen; reflexivity.
Defined.

Lemma scrape_page_lookup_unique_witness :
  let out := scrape_page Sample.strip Sample.urljoin initial_state
               Sample.page_AB in
  ∃ data,
    out.1.2 = Some data
    ∧ NoDup (row_id <$> data)
    ∧ size (data_cache out.1.1) = length data.
Proof.
  cbv zeta.
  eassert (is_Some (scrape_page Sample.strip Sample.urljoin initial_state
                      Sample.page_AB).1.2) as [data Hdata]
    by (eexists; vm_compute; reflexivity).
  assert (NoDup (row_id <$> data)) as Hnd.
  { pose proof Hdata as Hdata'. vm_compute in Hdata'.
    injection Hdata' as <-. vm_compute. apply NoDup_cons. split.
    - intros Hin. apply list_elem_of_singleton in Hin. discriminate.
    - apply NoDup_singleton. }
  exists data. split; [exact Hdata|]. split; [exact Hnd|].
  exact (proj2 (scrape_page_lookup_unique Sample.strip Sample.urljoin
                  initial_state Sample.page_AB data Hdata Hnd)).
Defined.

Lemma scrape_page_raises_partial_cache_witness :
  let rows :=
    [Sample.cells "A" "Vigente";
     Sample.cells_with "B" "//[x" "03/01/2025 03:10:00" "Vigente";
     Sample.cells "C" "Vigente"] in
  let out := scrape_page Sample.strip Sample.urljoin Sample.state_after_AB
               (Fetched (PageRows rows)) in
  ¬ links_join Sample.strip Sample.urljoin rows
  ∧ out.1.2 = None
  ∧ dom (data_cache out.1.1) = {[ "A" ]}.
Proof.
  cbv zeta.
  set (rows := [Sample.cells "A" "Vigente";
                Sample.cells_with "B" "//[x" "03/01/2025 03:10:00" "Vigente";
                Sample.cells "C" "Vigente"]).
  assert (¬ links_join Sample.strip Sample.urljoin rows) as Hbad.
  { intros Hall. unfold links_join in Hall.
    apply (Forall_lookup_1 _ _ 1
             (Sample.cells_with "B" "//[x" "03/01/2025 03:10:00" "Vigente"))
      in Hall; [|reflexivity].
    destruct Hall as [r Hr]. vm_compute in Hr. discriminate. }
  split; [exact Hbad|].
  destruct (scrape_page_raises_partial_cache Sample.strip Sample.urljoin
              Sample.state_after_AB rows Hbad) as (Hnone & _).
  split; [exact Hnone|]. vm_compute. reflexivity.
Defined.

(** ** Errors of the classifier and of the formatter *)

(** X5. [filter_vigente] raises exactly when some record has fewer than
    six fields: a short record is not skipped, it makes the whole call
    fail. *)
Theorem filter_vigente_raises_iff (data : list row) :
  filter_vigente data = None ↔ ∃ r : row, r ∈ data ∧ (length r < 6)%nat.
Proof.
  split.
  - intros Hnone.
    destruct (decide (Forall (λ r : row, 6 ≤ length r)%nat data))
      as [Hall|Hnot].
    + rewrite filter_vigente_filter in Hnone by done. discriminate.
    + apply not_Forall_Exists, Exists_exists in Hnot as (r & Hr & Hlen);
        [|apply _].
      exists r. split; [done|]. simpl in Hlen. lia.
  - intros (r & Hr & Hlen). by eapply filter_vigente_short.
Qed.

(** X6. [format_single_publication] raises exactly on a record of fewer
    than seven fields and on a record whose expiry text parses to an
    aware datetime, whatever the clock reads. *)
Theorem format_single_publication_raises_iff
    (dateparser_parse : string → option PyTime.parsed)
    (now : PyTime.datetime) (r : row) :
  format_single_publication dateparser_parse now r = None
  ↔ (length r < 7)%nat
    ∨ ∃ r4 d, r !! 4%nat = Some r4
              ∧ dateparser_parse r4 = Some (PyTime.Aware d).
Proof. apply format_single_publication_none. Qed.

(** The keyboard of a formatted record, read off the record. *)
Lemma format_single_publication_keyboard
    (dateparser_parse : string → option PyTime.parsed)
    (now : PyTime.datetime) (r : row) (message : string)
    (markup : list (list button)) :
  format_single_publication dateparser_parse now r = Some (message, markup) →
  ∃ r0 r6,
    r !! 0%nat = Some r0 ∧ r !! 6%nat = Some r6
    ∧ markup
      = [(if bool_decide (r6 = no_disponible) then []
          else [mk_button "PDF Original" ("download_" +:+ r0)])
         ++ [mk_button "PDF de la Publicación" ("sharepdf_" +:+ r0);
             mk_button "Agregar al Calendario" ("calendar_" +:+ r0)]].
Proof.
  intros Hfmt.
  destruct (decide (length r < 7)%nat) as [Hshort|Hlong].
  { rewrite format_single_publication_short in Hfmt by done. discriminate. }
  destruct r as [|r0 [|r1 [|r2 [|r3 [|r4 [|r5 [|r6 rest]]]]]]];
    simpl in Hlong; try lia.
  exists r0, r6. split; [done|]. split; [done|].
  revert Hfmt. unfold format_single_publication.
  change ((r0 :: r1 :: r2 :: r3 :: r4 :: r5 :: r6 :: rest) !! 6%nat)
    with (Some r6).
  change ((r0 :: r1 :: r2 :: r3 :: r4 :: r5 :: r6 :: rest) !! 3%nat)
    with (Some r3).
  change ((r0 :: r1 :: r2 :: r3 :: r4 :: r5 :: r6 :: rest) !! 4%nat)
    with (Some r4).
  change ((r0 :: r1 :: r2 :: r3 :: r4 :: r5 :: r6 :: rest) !! 0%nat)
    with (Some r0).
  change ((r0 :: r1 :: r2 :: r3 :: r4 :: r5 :: r6 :: rest) !! 1%nat)
    with (Some r1).
  change ((r0 :: r1 :: r2 :: r3 :: r4 :: r5 :: r6 :: rest) !! 5%nat)
    with (Some r5).
  cbn [mbind option_bind].
  destruct (available_time now (dateparser_parse r4)) as [shown|]; [|done].
  cbn [mbind option_bind].
  destruct (decide (r6 = no_disponible)) as [->|Hne].
  - intros [= _ <-]. reflexivity.
  - rewrite (bool_decide_true (r6 ≠ no_disponible)) by done.
    rewrite (bool_decide_true (r6 ≠ no_disponible)) by done.
    rewrite (bool_decide_false (r6 = no_disponible)) by done.
    intros [= _ <-]. reflexivity.
Qed.

(** X7. The keyboard under a formatted record always has the summary and
    the calendar button, preceded by the download button exactly when
    field 6 of the record is not "No disponible"; the data of each button
    is its action prefix followed by the id, field 0 of the record. *)
Theorem format_single_publication_buttons
    (dateparser_parse : string → option PyTime.parsed)
    (now : PyTime.datetime) (r : row) (message : string)
    (markup : list (list button)) :
  format_single_publication dateparser_parse now r = Some (message, markup) →
  ∃ r0 r6,
    r !! 0%nat = Some r0 ∧ r !! 6%nat = Some r6
    ∧ markup
      = [(if bool_decide (r6 = no_disponible) then []
          else [mk_button "PDF Original" ("download_" +:+ r0)])
         ++ [mk_button "PDF de la Publicación" ("sharepdf_" +:+ r0);
             mk_button "Agregar al Calendario" ("calendar_" +:+ r0)]].
Proof. apply format_single_publication_keyboard. Qed.

Lemma format_single_publication_buttons_witness :
  let r : row :=
    ["A"; "Servicio de mantenimiento"; "Ver"; "01/01/2025 00:00:00";
     "03/01/2025 03:10:00"; "Vigente"; "No disponible"] in
  ∃ message markup,
    format_single_publication Sample.dateparser_parse 0 r
    = Some (message, markup)
    ∧ markup = [[mk_button "PDF de la Publicación" "sharepdf_A";
                 mk_button "Agregar al Calendario" "calendar_A"]].
Proof.
  cbv zeta.
  destruct (sample_formatted "A" "No disponible")
    as (message & markup & _ & _ & Hfmt & _).
  exists message, markup. split; [exact Hfmt|].
  destruct (format_single_publication_buttons Sample.dateparser_parse 0
              _ message markup Hfmt) as (r0 & r6 & H0 & H6 & ->).
  injection H0 as <-. injection H6 as <-. reflexivity.
Defined.

(** ** More on the cycle *)

Lemma sends_logged (log : list log_entry) : sends (Logged <$> log) = [].
Proof.
  unfold sends. induction log as [|e log IH]; [done|].
  rewrite fmap_cons, filter_cons. exact IH.
Qed.

Lemma bind_length_le {A B} (f : A → list B) (n : nat) (l : list A) :
  (∀ x, length (f x) ≤ n)%nat → (length (l ≫= f) ≤ n * length l)%nat.
Proof.
  intros Hf. induction l as [|x l IH]; [simpl; lia|].
  rewrite bind_cons, length_app. specialize (Hf x). simpl. lia.
Qed.

Lemma notify_subscriber_events send_ok (p message : string)
    (markup : list (list button)) (v : Z) (ev : event) (u : Z) :
  ev ∈ notify_subscriber send_ok p message markup v →
  Is_true (addressed_to u ev) → u = v.
Proof.
  unfold notify_subscriber.
  destruct (send_ok p v Greeting), (send_ok p v Details);
    intros Hin; repeat (apply elem_of_cons in Hin as [->|Hin]);
    try (by apply elem_of_nil in Hin); simpl;
    intros Hu; by apply bool_decide_unpack in Hu.
Qed.

Lemma notify_subscriber_sends send_ok (p message : string)
    (markup : list (list button)) (v : Z) :
  (length (sends (notify_subscriber send_ok p message markup v)) ≤ 2)%nat.
Proof.
  unfold notify_subscriber, sends.
  destruct (send_ok p v Greeting), (send_ok p v Details);
    repeat (rewrite filter_cons; simpl); rewrite ?filter_nil; simpl; lia.
Qed.

Lemma prefix_filter_length {A} (P : A → Prop) `{!∀ x, Decision (P x)}
    (l k : list A) :
  l `prefix_of` k → (length (filter P l) ≤ length (filter P k))%nat.
Proof. intros [k' ->]. rewrite filter_app, length_app. lia. Qed.

Lemma prefix_elem_of {A} (l k : list A) (x : A) :
  l `prefix_of` k → x ∈ l → x ∈ k.
Proof. intros [k' ->] Hx. apply elem_of_app. by left. Qed.

Section CycleMore.

Variable strip : string → string.
Variable urljoin : string → string → option string.
Variable dateparser_parse : string → option PyTime.parsed.

Abbreviation cycle_with now send_ok :=
  (check_for_new_publications strip urljoin dateparser_parse now send_ok).

(** Whatever the cycle attempts or logs for a chat, the chat is
    subscribed. *)
Lemma cycle_addressees now send_ok st resp (ev : event) (u : Z) :
  ev ∈ (cycle_with now send_ok st resp).1.2 →
  Is_true (addressed_to u ev) → u ∈ subscribers st.
Proof.
  pose proof (check_for_new_publications_eq strip urljoin dateparser_parse
                now send_ok st resp) as Heq.
  simpl in Heq. rewrite Heq. cbn [fst snd]. intros Hin Hu.
  apply elem_of_app in Hin as [Hin|Hin].
  - apply list_elem_of_fmap in Hin as (e & -> & He).
    destruct resp as [|[| |rows]]; simpl in He;
      try (apply list_elem_of_singleton in He as ->; by simpl in Hu).
    by apply elem_of_nil in He.
  - eapply prefix_elem_of in Hin; [|apply notify_all_prefix].
    apply list_elem_of_bind in Hin as (p & Hin & _).
    destruct (notify_publication_cases dateparser_parse now send_ok
                (vigente_rows strip urljoin resp)
                (elements (subscribers st)) p)
      as [Hnil|[(r & _ & _ & Hnil)|(r & m & k & _ & _ & Hev)]].
    + rewrite Hnil in Hin. by apply elem_of_nil in Hin.
    + rewrite Hnil in Hin. by apply elem_of_nil in Hin.
    + rewrite Hev in Hin. apply list_elem_of_bind in Hin as (v & Hin & Hv).
      apply elem_of_elements in Hv.
      by rewrite (notify_subscriber_events _ _ _ _ _ _ _ Hin Hu).
Qed.

(** A body of the loop raises exactly on an id whose first active record
    has an expiry text that parses to an aware datetime. *)
Lemma notify_publication_raises now send_ok resp (subs : list Z)
    (p : string) :
  (notify_publication dateparser_parse now send_ok
     (vigente_rows strip urljoin resp) subs p).2 = Raised
  ↔ ∃ r, pub_details (vigente_rows strip urljoin resp) p = Some r
         ∧ aware_expiry dateparser_parse r.
Proof.
  unfold notify_publication.
  destruct (pub_details (vigente_rows strip urljoin resp) p) as [r|] eqn:Hdet;
    cycle 1.
  { split; [done | by intros (r & ? & _)]. }
  destruct (pub_details_found strip urljoin resp p r Hdet)
    as (_ & _ & Hlen).
  rewrite bool_decide_true by (intros ->; simpl in Hlen; lia).
  pose proof (format_single_publication_none dateparser_parse (now p) r)
    as Hnone.
  destruct (format_single_publication dateparser_parse (now p) r)
    as [mm|]; simpl.
  - split; [done|]. intros (r' & [= <-] & Haware).
    destruct Hnone as [_ Hnone]. by specialize (Hnone (or_intror Haware)).
  - split; [|done]. intros _. exists r. split; [done|].
    destruct Hnone as [Hnone _]. destruct (Hnone eq_refl); [lia|done].
Qed.

(** X8. A cycle on the response of the cycle before sends nothing and
    leaves [previous_publications] as it is, and so does a cycle from any
    state that holds the same [previous_publications], for instance after
    somebody subscribed in between; run from the very state the first
    cycle left, it changes no global at all.  This holds whether the first
    cycle returned or raised; the repeated cycle ends as its [scrape_page]
    does. *)
Theorem repeated_cycle_sends_nothing now send_ok now' send_ok' st resp :
  let st1 := (cycle_with now send_ok st resp).1.1 in
  cycle_with now' send_ok' st1 resp
  = (st1, Logged <$> (scrape_page strip urljoin st resp).2,
     scrape_ending strip urljoin resp)
  ∧ ∀ st2,
      previous_publications st2 = previous_publications st1 →
      let again := cycle_with now' send_ok' st2 resp in
      sends again.1.2 = []
      ∧ previous_publications again.1.1 = previous_publications st1
      ∧ subscribers again.1.1 = subscribers st2
      ∧ again.2 = scrape_ending strip urljoin resp.
Proof.
  cbv zeta.
  pose proof (check_for_new_publications_eq strip urljoin dateparser_parse
                now send_ok st resp) as Heq.
  simpl in Heq.
  set (current := active_ids strip urljoin resp) in *.
  set (st1 := if decide (current ∖ previous_publications st = ∅)
              then (scrape_page strip urljoin st resp).1.1
              else set_previous_publications
                     (scrape_page strip urljoin st resp).1.1 current).
  assert ((cycle_with now send_ok st resp).1.1 = st1) as ->
    by (by rewrite Heq).
  clear Heq.
  destruct (scrape_page_globals strip urljoin st resp)
    as (_ & _ & _ & Hprev & _).
  assert (current ∖ previous_publications st1 = ∅) as Hnone.
  { unfold st1. case_decide as Hnew; simpl.
    - by rewrite Hprev.
    - apply set_eq. intros x. rewrite elem_of_difference, elem_of_empty.
      tauto. }
  assert (∀ st2, previous_publications st2 = previous_publications st1 →
            cycle_with now' send_ok' st2 resp
            = ((scrape_page strip urljoin st2 resp).1.1,
               Logged <$> (scrape_page strip urljoin st2 resp).2,
               scrape_ending strip urljoin resp))
    as Hagain.
  { intros st2 Hsame.
    pose proof (check_for_new_publications_eq strip urljoin dateparser_parse
                  now' send_ok' st2 resp) as Heq2.
    simpl in Heq2. rewrite Heq2. fold current. rewrite Hsame, Hnone.
    rewrite decide_True by done. rewrite elements_empty. simpl.
    rewrite app_nil_r.
    destruct (scrape_page_globals strip urljoin st2 resp) as (-> & _).
    reflexivity. }
  split.
  - rewrite (Hagain st1 eq_refl). f_equal. f_equal.
    + rewrite (scrape_page_state strip urljoin st1).
      unfold st1. rewrite (scrape_page_state strip urljoin st).
      by case_decide.
    + by destruct resp as [|[| |rows]].
  - intros st2 Hsame. rewrite (Hagain st2 Hsame). cbn [fst snd].
    destruct (scrape_page_globals strip urljoin st2 resp)
      as (_ & _ & Hs & Hp & _).
    split; [apply sends_logged|]. split; [by rewrite Hp|done].
Qed.

(** X9. After every cycle, whether it returns or raises, each id that is
    active in the response is in [previous_publications], which holds
    nothing but ids already recorded or active now; the subscribers are
    left as they were and the cache is the one [scrape_page] leaves for
    the response.  The cycle raises exactly when [scrape_page] raises, or
    when the first active record of some new id has an expiry text that
    parses to an aware datetime. *)
Theorem cycle_records_active now send_ok st resp :
  let out := cycle_with now send_ok st resp in
  active_ids strip urljoin resp ⊆ previous_publications out.1.1
  ∧ previous_publications out.1.1
    ⊆ previous_publications st ∪ active_ids strip urljoin resp
  ∧ subscribers out.1.1 = subscribers st
  ∧ data_cache out.1.1
    = data_cache (scrape_page strip urljoin initial_state resp).1.1
  ∧ (out.2 = Raised
     ↔ scraped strip urljoin resp = None
       ∨ ∃ p r,
           p ∈ active_ids strip urljoin resp ∖ previous_publications st
           ∧ pub_details (vigente_rows strip urljoin resp) p = Some r
           ∧ aware_expiry dateparser_parse r).
Proof.
  cbv zeta.
  pose proof (check_for_new_publications_eq strip urljoin dateparser_parse
                now send_ok st resp) as Heq.
  simpl in Heq. rewrite Heq. cbn [fst snd]. clear Heq.
  destruct (scrape_page_globals strip urljoin st resp)
    as (Hsame & _ & Hsubs & Hprev & _).
  rewrite Hsame.
  rewrite (scrape_page_state strip urljoin st) in *.
  split_and!.
  - case_decide as Hnew; simpl; [|done].
    intros x Hx. destruct (decide (x ∈ previous_publications st)); [done|].
    assert (x ∈ active_ids strip urljoin resp ∖ previous_publications st)
      as Hin by (by apply elem_of_difference).
    rewrite Hnew in Hin. by apply elem_of_empty in Hin.
  - case_decide; simpl; intros x Hx;
      [by apply elem_of_union_l | by apply elem_of_union_r].
  - by case_decide.
  - by case_decide.
  - destruct (scraped strip urljoin resp) as [data|] eqn:Hdata; cycle 1.
    { split; [by left | done]. }
    set (new := active_ids strip urljoin resp ∖ previous_publications st).
    pose proof (notify_all_returned dateparser_parse now send_ok
                  (vigente_rows strip urljoin resp)
                  (elements (subscribers st)) (elements new)) as Hret.
    split.
    + intros Hraised. right.
      destruct (decide (Forall (λ p,
                  (notify_publication dateparser_parse now send_ok
                     (vigente_rows strip urljoin resp)
                     (elements (subscribers st)) p).2 = Returned)
                  (elements new))) as [Hall|Hnot].
      { apply Hret in Hall. congruence. }
      apply not_Forall_Exists, Exists_exists in Hnot as (p & Hp & Hne);
        [|apply _].
      assert ((notify_publication dateparser_parse now send_ok
                 (vigente_rows strip urljoin resp)
                 (elements (subscribers st)) p).2 = Raised) as Hr
        by (simpl in Hne;
            destruct (notify_publication dateparser_parse now send_ok
                        (vigente_rows strip urljoin resp)
                        (elements (subscribers st)) p) as [evs [|]];
            [by destruct Hne | done]).
      apply notify_publication_raises in Hr as (r & Hdet & Haware).
      exists p, r. split; [by apply elem_of_elements|done].
    + intros [|(p & r & Hp & Hdet & Haware)]; [done|].
      assert ((notify_all dateparser_parse now send_ok
                 (vigente_rows strip urljoin resp)
                 (elements (subscribers st)) (elements new)).2 ≠ Returned)
        as Hne.
      { intros Hend. apply Hret in Hend. rewrite Forall_forall in Hend.
        specialize (Hend p (proj2 (elem_of_elements _ _) Hp)).
        assert ((notify_publication dateparser_parse now send_ok
                   (vigente_rows strip urljoin resp)
                   (elements (subscribers st)) p).2 = Raised) as Hr
          by (apply notify_publication_raises; by exists r).
        congruence. }
      clear Hret.
      destruct (notify_all dateparser_parse now send_ok
                  (vigente_rows strip urljoin resp)
                  (elements (subscribers st)) (elements new)).2;
        [by destruct Hne | done].
Qed.

(** X10. Every [send_message] of a cycle goes to a chat that is
    subscribed, and a cycle makes at most two calls per new id and
    subscriber; with nobody subscribed it sends nothing. *)
Theorem cycle_sends_to_subscribers now send_ok st resp :
  let evs := (cycle_with now send_ok st resp).1.2 in
  (∀ u text markup ok, Send u text markup ok ∈ evs → u ∈ subscribers st)
  ∧ (length (sends evs)
     ≤ 2 * size (subscribers st)
       * size (active_ids strip urljoin resp ∖ previous_publications st))%nat
  ∧ (subscribers st = ∅ → sends evs = []).
Proof.
  cbv zeta.
  assert (length (sends (cycle_with now send_ok st resp).1.2)
          ≤ 2 * size (subscribers st)
            * size (active_ids strip urljoin resp
                    ∖ previous_publications st))%nat as Hbound.
  { pose proof (check_for_new_publications_eq strip urljoin dateparser_parse
                  now send_ok st resp) as Heq.
    simpl in Heq. rewrite Heq. cbn [fst snd]. clear Heq.
    unfold sends at 1. rewrite filter_app. fold (sends (Logged <$>
      (scrape_page strip urljoin st resp).2)). rewrite sends_logged. simpl.
    etransitivity;
      [apply prefix_filter_length, notify_all_prefix|].
    rewrite filter_bind.
    etransitivity; [apply (bind_length_le _ (2 * size (subscribers st)))|].
    - intros p.
      destruct (notify_publication_cases dateparser_parse now send_ok
                  (vigente_rows strip urljoin resp)
                  (elements (subscribers st)) p)
        as [->|[(r & _ & _ & ->)|(r & m & k & _ & _ & ->)]].
      + simpl. lia.
      + simpl. lia.
      + cbn [fst]. rewrite filter_bind.
        etransitivity; [apply (bind_length_le _ 2)|].
        * intros v. apply notify_subscriber_sends.
        * done.
    - done. }
  split_and!.
  - intros u text markup ok Hin.
    apply (cycle_addressees now send_ok st resp _ u Hin).
    simpl. by apply bool_decide_pack.
  - exact Hbound.
  - intros Hnone.
    assert (size (subscribers st) = 0%nat) as Hzero
      by (rewrite Hnone; apply size_empty).
    rewrite Hzero in Hbound. apply length_zero_iff_nil. lia.
Qed.

(** X11. Once a chat has unsubscribed, the next cycle attempts nothing and
    logs nothing for it, whatever is new. *)
Theorem unsubscribed_gets_nothing now send_ok st (x : Z) resp :
  events_for x (cycle_with now send_ok (unsubscribe st x).1 resp).1.2 = [].
Proof.
  apply elem_of_nil_inv. intros ev [Hx Hin]%list_elem_of_filter.
  pose proof (cycle_addressees now send_ok _ resp ev x Hin Hx) as Hsub.
  simpl in Hsub. apply elem_of_difference in Hsub as [_ Hsub].
  apply Hsub. by apply elem_of_singleton.
Qed.

End CycleMore.

(** A cycle that raises in the formatter has recorded the new ids all the
    same: the cycle after it announces nothing. *)
Example cycle_raises_after_recording :
  ∃ st1,
    Sample.cycle Sample.send_all (mk_state {[ 7 ]} ∅ ∅) Sample.page_zone
    = (st1, [], Raised)
    ∧ previous_publications st1 = {[ "Z" ]}
    ∧ Sample.cycle Sample.send_all st1 Sample.page_zone = (st1, [], Returned).
Proof.
  eexists. split_and!.
  - vm_compute. reflexivity.
  - vm_compute. reflexivity.
  - vm_compute. reflexivity.
Qed.

(** ** The [/vigentes] command and the registry *)

Section VigentesFacts.

Variable strip : string → string.
Variable urljoin : string → string → option string.
Variable dateparser_parse : string → option PyTime.parsed.
Variable now_at : nat → PyTime.datetime.


(** [/vigentes] leaves the globals as its [scrape_page] does. *)
Lemma vigentes_state st resp :
  (vigentes strip urljoin dateparser_parse now_at st resp).1.1.1
  = (scrape_page strip urljoin st resp).1.1
  ∧ (vigentes strip urljoin dateparser_parse now_at st resp).1.1.2
    = (scrape_page strip urljoin st resp).2.
Proof.
  unfold vigentes.
  destruct (scrape_page strip urljoin st resp) as [[st1 data] log].
  destruct (data ≫= filter_vigente) as [vd|]; [|done].
  by case_bool_decide.
Qed.


(** A cycle reads [subscribers] and [previous_publications] only. *)
Lemma cycle_ignores_cache now send_ok st st' resp :
  subscribers st = subscribers st' →
  previous_publications st = previous_publications st' →
  check_for_new_publications strip urljoin dateparser_parse now send_ok
    st resp
  = check_for_new_publications strip urljoin dateparser_parse now send_ok
      st' resp.
Proof.
  intros Hsubs Hprev.
  pose proof (check_for_new_publications_eq strip urljoin dateparser_parse
                now send_ok st resp) as Heq.
  pose proof (check_for_new_publications_eq strip urljoin dateparser_parse
                now send_ok st' resp) as Heq'.
  simpl in *. rewrite Heq, Heq'.
  destruct (scrape_page_globals strip urljoin st resp) as (-> & _).
  destruct (scrape_page_globals strip urljoin st' resp) as (-> & _).
  rewrite (scrape_page_state strip urljoin st),
    (scrape_page_state strip urljoin st'), Hsubs, Hprev.
  assert ((scrape_page strip urljoin st resp).2
          = (scrape_page strip urljoin st' resp).2) as ->
    by (by destruct resp as [|[| |rows]]).
  do 2 f_equal. case_decide; unfold set_data_cache, set_previous_publications;
    simpl; by rewrite Hsubs, ?Hprev.
Qed.

(** X13. A [/vigentes] between two cycles, on whatever page it sees and
    however it ends, changes nothing of what the next cycle sends, logs
    and leaves in the globals. *)
Theorem vigentes_between_cycles now send_ok st resp resp' :
  let stv :=
    (vigentes strip urljoin dateparser_parse now_at st resp').1.1.1 in
  check_for_new_publications strip urljoin dateparser_parse now send_ok
    stv resp
  = check_for_new_publications strip urljoin dateparser_parse now
      send_ok st resp.
Proof.
  cbv zeta. destruct (vigentes_state st resp') as [-> _].
  destruct (scrape_page_globals strip urljoin st resp')
    as (_ & _ & Hsubs & Hprev & _).
  by apply cycle_ignores_cache.
Qed.

End VigentesFacts.

(** [/vigentes] on a page whose second active record has a zone in its
    expiry text: the first record is answered, then the handler raises. *)
Example vigentes_raises_midway :
  ∃ st1 answer,
    vigentes Sample.strip Sample.urljoin Sample.dateparser_parse (λ _, 0)
      initial_state Sample.page_two_zone
    = (st1, [], [answer], Raised).
Proof. eexists _, _. vm_compute. reflexivity. Qed.

(** X14. Unsubscribing after subscribing takes the chat out of the
    registry and gives the registry without that chat, the very state from
    before when the chat was not subscribed; neither handler touches
    [previous_publications] or [data_cache]; and the two handlers commute
    on different chats. *)
Theorem subscribe_then_unsubscribe :
  (∀ st (x : Z),
     let st' := (unsubscribe (subscribe st x).1 x).1 in
     (x ∉ subscribers st')
     ∧ subscribers st' = subscribers st ∖ {[ x ]}
     ∧ previous_publications st' = previous_publications st
     ∧ data_cache st' = data_cache st
     ∧ (x ∉ subscribers st → st' = st))
  ∧ (∀ st (x y : Z),
       x ≠ y →
       (unsubscribe (subscribe st x).1 y).1
       = (subscribe (unsubscribe st y).1 x).1).
Proof.
  split.
  - intros [subs prev cache] x. simpl. unfold set_subscribers. simpl.
    assert (({[x]} ∪ subs) ∖ {[x]} = subs ∖ {[x]}) as Hsame.
    { apply set_eq. intros z.
      rewrite !elem_of_difference, elem_of_union, elem_of_singleton. tauto. }
    rewrite Hsame. split_and!; try done.
    + rewrite elem_of_difference, elem_of_singleton. tauto.
    + intros Hx. f_equal. apply set_eq. intros z.
      rewrite elem_of_difference, elem_of_singleton.
      split; [tauto|]. intros Hz. split; [done|]. by intros ->.
  - intros [subs prev cache] x y Hne. simpl. unfold set_subscribers. simpl.
    f_equal. apply set_eq. intros z.
    rewrite !elem_of_difference, !elem_of_union, !elem_of_difference,
      !elem_of_singleton.
    split; [tauto|].
    intros [->|[Hz Hy]]; (split; [tauto|done]).
Qed.

(** ** The buttons *)

Module PyReplaceFacts.
Import PyReplace.

Local Arguments String.append !_ _ / : simpl nomatch.

Lemma replace_from_skip (a old new s : string) :
  replace_from (String.length a) old new (a +:+ s) = replace_from 0 old new s.
Proof. induction a as [|c a IH]; [done|]. simpl. exact IH. Qed.

(** Without an occurrence of [old] the text comes back as it is. *)
Lemma replace_absent (old new s : string) :
  PyStr.str_in old s = false → replace old new s = s.
Proof.
  unfold replace. induction s as [|c s IH]; [done|].
  rewrite PyStrFacts.str_in_unfold. intros [Hpre Hin]%orb_false_iff.
  cbn [replace_from]. rewrite Hpre. by rewrite (IH Hin).
Qed.

(** An occurrence at the start is replaced, and the search goes on behind
    it. *)
Lemma replace_at_start (c : Ascii.ascii) (o new s : string) :
  replace (String c o) new (String c o +:+ s)
  = new +:+ replace (String c o) new s.
Proof.
  unfold replace.
  assert (String.prefix (String c o) (String c o +:+ s) = true) as Hpre
    by (apply PyStrFacts.prefix_app; by exists s).
  change (String c o +:+ s) with (String c (o +:+ s)) in *.
  cbn [replace_from]. rewrite Hpre.
  change (String.length (String c o) - 1)%nat with (String.length o - 0)%nat.
  rewrite Nat.sub_0_r. by rewrite replace_from_skip.
Qed.

(** The id behind an action prefix is read back when the prefix does not
    occur in the id. *)
Lemma replace_prefix_round_trip (c : Ascii.ascii) (o s : string) :
  PyStr.str_in (String c o) s = false →
  replace (String c o) EmptyString (String c o +:+ s) = s.
Proof.
  intros Habsent. rewrite replace_at_start. simpl.
  by apply replace_absent.
Qed.

End PyReplaceFacts.

Section CallbackFacts.

Variable strip : string → string.
Variable urljoin : string → string → option string.
Variable dateparser_parse : string → option PyTime.parsed.
Variable urlparse : string → option ParseResult.
Variable parse_qs : string → gmap string (list string).
Variable http_get : string → download.
Variable strptime : string → option PyTime.datetime.
Variable first_30 : string → string.
Variable ics_serialize :
  string → PyTime.datetime → PyTime.datetime → string → option string.
Variable fpdf_output : list string → option string.

Abbreviation callback :=
  (button_callback urlparse parse_qs http_get strptime first_30
                   ics_serialize fpdf_output).

(** What [button_callback] does with the data of a summary button. *)
Lemma callback_sharepdf st (pub_id : string) :
  PyStr.str_in "sharepdf_" pub_id = false →
  callback st ("sharepdf_" +:+ pub_id)
  = match data_cache st !! pub_id with
    | Some pub_data =>
        pdf_output ← fpdf_output (summary_lines pub_id pub_data);
        Some [CallbackReply
                (ReplyDocument ("Publicacion_" +:+ pub_id +:+ ".pdf")
                               (SummaryPdf pdf_output))]
    | None =>
        Some [text_reply "No se pudo generar el PDF de la publicación."]
    end.
Proof.
  intros Habsent. unfold button_callback.
  change (PyStr.startswith ("sharepdf_" +:+ pub_id) "download_") with false.
  change (PyStr.startswith ("sharepdf_" +:+ pub_id) "calendar_") with false.
  assert (PyStr.startswith ("sharepdf_" +:+ pub_id) "sharepdf_" = true)
    as -> by (apply PyStrFacts.prefix_app; by exists pub_id).
  cbv iota. unfold sharepdf_callback.
  by rewrite (PyReplaceFacts.replace_prefix_round_trip _ _ _ Habsent).
Qed.

(** X15. The summary button of a notification leads back to the record:
    for a record returned by [scrape_page] whose id does not contain the
    text "sharepdf_", the keyboard of the formatted record has the summary
    button, and pressing it while the cache of that [scrape_page] stands
    finds the entry stored under the id of the record, built from the last
    returned record with that id, and answers with the summary of that
    entry under the name [Publicacion_<id>.pdf]. *)
Theorem summary_button_round_trip (now : PyTime.datetime) st resp
    (data : list row) (r : row) (message : string)
    (markup : list (list button)) :
  (scrape_page strip urljoin st resp).1.2 = Some data →
  r ∈ data →
  format_single_publication dateparser_parse now r = Some (message, markup) →
  PyStr.str_in "sharepdf_" (row_id r) = false →
  ∃ b e,
    b ∈ concat markup
    ∧ btn_text b = "PDF de la Publicación"
    ∧ data_cache (scrape_page strip urljoin st resp).1.1 !! row_id r = Some e
    ∧ Some (ce_row e)
      = last (filter (λ r' : row, row_id r' = row_id r) data)
    ∧ callback (scrape_page strip urljoin st resp).1.1 (btn_callback_data b)
      = (pdf_output ← fpdf_output (summary_lines (row_id r) e);
         Some [CallbackReply
                 (ReplyDocument ("Publicacion_" +:+ row_id r +:+ ".pdf")
                                (SummaryPdf pdf_output))]).
Proof.
  intros Hdata Hr Hfmt Habsent.
  destruct (format_single_publication_keyboard dateparser_parse now r
              message markup Hfmt)
    as (r0 & r6 & H0 & H6 & ->).
  assert (row_id r = r0) as Hid by (unfold row_id; by rewrite H0).
  assert (is_Some (data_cache (scrape_page strip urljoin st resp).1.1
                     !! row_id r)) as [e He].
  { apply elem_of_dom.
    rewrite (cache_dom_ids strip urljoin st resp data Hdata),
      elem_of_list_to_set.
    apply list_elem_of_fmap. by exists r. }
  exists (mk_button "PDF de la Publicación" ("sharepdf_" +:+ r0)), e.
  split_and!.
  - simpl. rewrite app_nil_r. apply elem_of_app. right. by left.
  - done.
  - done.
  - rewrite <- (cache_row_last strip urljoin st resp data _ Hdata).
    by rewrite He.
  - simpl. rewrite <- Hid. rewrite (callback_sharepdf _ _ Habsent).
    by rewrite He.
Qed.



(** X17. The download button sends a document only when the cache has an
    entry for the id read from the data, the link of the entry is not
    "No disponible" and the GET of the link answers with status 200; a
    link on a drive host is fetched at what [convert_drive_url] makes of
    it, any other link as it is; the document is then the only answer and
    is named [<id>.pdf]. *)
Theorem download_button_document st (data : string)
    (evs : list callback_event) (filename : string) (doc : attachment) :
  PyStr.startswith data "download_" = true →
  callback st data = Some evs →
  CallbackReply (ReplyDocument filename doc) ∈ evs →
  ∃ e u,
    data_cache st !! PyReplace.replace "download_" "" data = Some e
    ∧ ce_pdf_url e ≠ no_disponible
    ∧ (if PyStr.str_in "drive.google.com" (ce_pdf_url e)
       then convert_drive_url urlparse parse_qs (ce_pdf_url e) = Some u
       else u = ce_pdf_url e)
    ∧ http_get u = DownloadStatus 200
    ∧ evs = [CallbackReply
               (ReplyDocument
                  (PyReplace.replace "download_" "" data +:+ ".pdf")
                  (OriginalPdf u))].
Proof.
  intros Hpre. unfold button_callback. rewrite Hpre.
  unfold download_callback.
  destruct (data_cache st !! _) as [e|];
    [|intros [= <-] Hin; apply list_elem_of_singleton in Hin; discriminate].
  case_bool_decide as Hlink;
    [|intros [= <-] Hin; apply list_elem_of_singleton in Hin; discriminate].
  destruct (PyStr.str_in "drive.google.com" (ce_pdf_url e)) eqn:Hdrive.
  - destruct (convert_drive_url urlparse parse_qs (ce_pdf_url e))
      as [u|] eqn:Hconv; [|done].
    simpl. destruct (http_get u) as [|status] eqn:Hget.
    + intros [= <-] Hin.
      repeat (apply elem_of_cons in Hin as [Hin|Hin]; [discriminate|]).
      by apply elem_of_nil in Hin.
    + case_bool_decide as Hok;
        [|intros [= <-] Hin; apply list_elem_of_singleton in Hin;
          discriminate].
      intros [= <-] _. exists e, u. rewrite Hdrive. subst status.
      by split_and!.
  - simpl. destruct (http_get (ce_pdf_url e)) as [|status] eqn:Hget.
    + intros [= <-] Hin.
      repeat (apply elem_of_cons in Hin as [Hin|Hin]; [discriminate|]).
      by apply elem_of_nil in Hin.
    + case_bool_decide as Hok;
        [|intros [= <-] Hin; apply list_elem_of_singleton in Hin;
          discriminate].
      intros [= <-] _. exists e, (ce_pdf_url e). rewrite Hdrive.
      subst status. by split_and!.
Qed.

End CallbackFacts.

Lemma summary_button_round_trip_witness :
  let out := scrape_page Sample.strip Sample.urljoin initial_state
               Sample.page_AB in
  let r : row :=
    ["A"; "Servicio de mantenimiento"; "Ver"; "01/01/2025 00:00:00";
     "03/01/2025 03:10:00"; "Vigente";
     "https://sistemas.undc.edu.pe/bienesyservicios/bases.pdf"] in
  out.1.2 = Some [r; Sample.record "B" "Vigente"]
  ∧ r ∈ [r; Sample.record "B" "Vigente"]
  ∧ PyStr.str_in "sharepdf_" (row_id r) = false
  ∧ ∃ message markup b e,
      format_single_publication Sample.dateparser_parse 0 r
      = Some (message, markup)
      ∧ b ∈ concat markup
      ∧ btn_text b = "PDF de la Publicación"
      ∧ data_cache out.1.1 !! "A" = Some e
      ∧ SampleCallbacks.button_callback out.1.1 (btn_callback_data b)
        = (pdf_output ← SampleCallbacks.fpdf_output (summary_lines "A" e);
           Some [CallbackReply
                   (ReplyDocument "Publicacion_A.pdf"
                                  (SummaryPdf pdf_output))]).
Proof.
  cbv zeta.
  set (r := ["A"; "Servicio de mantenimiento"; "Ver"; "01/01/2025 00:00:00";
             "03/01/2025 03:10:00"; "Vigente";
             "https://sistemas.undc.edu.pe/bienesyservicios/bases.pdf"]).
  assert ((scrape_page Sample.strip Sample.urljoin initial_state
             Sample.page_AB).1.2 = Some [r; Sample.record "B" "Vigente"]) as Hdata
    by (vm_compute; reflexivity).
  assert (r ∈ [r; Sample.record "B" "Vigente"]) as Hr by left.
  assert (PyStr.str_in "sharepdf_" (row_id r) = false) as Habsent
    by reflexivity.
  split; [exact Hdata|]. split; [exact Hr|]. split; [exact Habsent|].
  destruct (sample_formatted "A"
              "https://sistemas.undc.edu.pe/bienesyservicios/bases.pdf")
    as (message & markup & _ & _ & Hfmt & _).
  destruct (summary_button_round_trip Sample.strip Sample.urljoin
              Sample.dateparser_parse SampleCallbacks.urlparse
              SampleCallbacks.parse_qs SampleCallbacks.http_get
              SampleCallbacks.strptime SampleCallbacks.first_30
              SampleCallbacks.ics_serialize SampleCallbacks.fpdf_output
              0 initial_state Sample.page_AB _ r message markup
              Hdata Hr Hfmt Habsent)
    as (b & e & Hb & Htext & He & _ & Hpress).
  exists message, markup, b, e.
  split; [exact Hfmt|]. split; [exact Hb|]. split; [exact Htext|].
  split; [exact He | exact Hpress].
Defined.


Lemma download_button_document_witness :
  let doc :=
    OriginalPdf "https://sistemas.undc.edu.pe/bienesyservicios/bases.pdf" in
  PyStr.startswith "download_A" "download_" = true
  ∧ SampleCallbacks.button_callback Sample.state_after_AB "download_A"
    = Some [CallbackReply (ReplyDocument "A.pdf" doc)]
  ∧ ∃ e,
      data_cache Sample.state_after_AB !! "A" = Some e
      ∧ ce_pdf_url e ≠ no_disponible.
Proof.
  cbv zeta.
  assert (SampleCallbacks.button_callback Sample.state_after_AB "download_A"
          = Some [CallbackReply
                    (ReplyDocument "A.pdf"
                       (OriginalPdf
                          "https://sistemas.undc.edu.pe/bienesyservicios/bases.pdf"))])
    as Hrun by (vm_compute; reflexivity).
  split; [reflexivity|]. split; [exact Hrun|].
  destruct (download_button_document SampleCallbacks.urlparse
              SampleCallbacks.parse_qs SampleCallbacks.http_get
              SampleCallbacks.strptime SampleCallbacks.first_30
              SampleCallbacks.ics_serialize SampleCallbacks.fpdf_output
              Sample.state_after_AB "download_A" _ "A.pdf" _
              eq_refl Hrun (list_elem_of_here _ _))
    as (e & u & He & Hlink & _).
  exists e. split; [exact He | exact Hlink].
Defined.

(** ** The buttons, further *)

Section CallbackMore.

Variable urlparse : string → option ParseResult.
Variable parse_qs : string → gmap string (list string).
Variable http_get : string → download.
Variable strptime : string → option PyTime.datetime.
Variable first_30 : string → string.
Variable ics_serialize :
  string → PyTime.datetime → PyTime.datetime → string → option string.
Variable fpdf_output : list string → option string.

Abbreviation press :=
  (button_callback urlparse parse_qs http_get strptime first_30
                   ics_serialize fpdf_output).

(** X18. The calendar button sends a calendar only when the cache has an
    entry for the id read from the data and both date texts of the entry
    are in the format [strptime] is called with; the file is then the only
    answer, is named [<id>.ics] and holds one event from the first to the
    second date, described by the description of the entry. *)
Theorem calendar_button_document st (data : string)
    (evs : list callback_event) (filename : string) (doc : attachment) :
  PyStr.startswith data "download_" = false →
  PyStr.startswith data "calendar_" = true →
  press st data = Some evs →
  CallbackReply (ReplyDocument filename doc) ∈ evs →
  ∃ e published expires content,
    data_cache st !! PyReplace.replace "calendar_" "" data = Some e
    ∧ strptime (ce_published_date e) = Some published
    ∧ strptime (ce_expires_date e) = Some expires
    ∧ ics_serialize
        ("Publicación #" +:+ PyReplace.replace "calendar_" "" data +:+ " - "
           +:+ first_30 (ce_description e) +:+ "...")
        published expires (ce_description e) = Some content
    ∧ evs = [CallbackReply
               (ReplyDocument
                  (PyReplace.replace "calendar_" "" data +:+ ".ics")
                  (CalendarFile content))].
Proof.
  intros Hdown Hcal. unfold button_callback. rewrite Hdown, Hcal.
  unfold calendar_callback.
  destruct (data_cache st !! _) as [e|];
    [|intros [= <-] Hin; apply list_elem_of_singleton in Hin; discriminate].
  destruct (strptime (ce_published_date e)) as [published|] eqn:Hpub;
    cycle 1.
  { intros [= <-] Hin.
    repeat (apply elem_of_cons in Hin as [Hin|Hin]; [discriminate|]).
    by apply elem_of_nil in Hin. }
  destruct (strptime (ce_expires_date e)) as [expires|] eqn:Hexp;
    cycle 1.
  { intros [= <-] Hin.
    repeat (apply elem_of_cons in Hin as [Hin|Hin]; [discriminate|]).
    by apply elem_of_nil in Hin. }
  destruct (ics_serialize _ published expires (ce_description e))
    as [content|] eqn:Hics; [|done].
  simpl. intros [= <-] _. by exists e, published, expires, content.
Qed.

End CallbackMore.

Lemma calendar_button_document_witness :
  let press :=
    button_callback SampleCallbacks.urlparse SampleCallbacks.parse_qs
      SampleCallbacks.http_get (λ _, Some 0) SampleCallbacks.first_30
      SampleCallbacks.ics_serialize SampleCallbacks.fpdf_output in
  PyStr.startswith "calendar_A" "download_" = false
  ∧ PyStr.startswith "calendar_A" "calendar_" = true
  ∧ ∃ content,
      press Sample.state_after_AB "calendar_A"
      = Some [CallbackReply (ReplyDocument "A.ics" (CalendarFile content))]
      ∧ ∃ e, data_cache Sample.state_after_AB !! "A" = Some e.
Proof.
  cbv zeta. split; [reflexivity|]. split; [reflexivity|].
  eassert (button_callback SampleCallbacks.urlparse SampleCallbacks.parse_qs
             SampleCallbacks.http_get (λ _, Some 0) SampleCallbacks.first_30
             SampleCallbacks.ics_serialize SampleCallbacks.fpdf_output
             Sample.state_after_AB "calendar_A"
           = Some [CallbackReply (ReplyDocument "A.ics" (CalendarFile _))])
    as Hrun by (vm_compute; reflexivity).
  destruct (calendar_button_document SampleCallbacks.urlparse
              SampleCallbacks.parse_qs SampleCallbacks.http_get
              (λ _, Some 0) SampleCallbacks.first_30
              SampleCallbacks.ics_serialize SampleCallbacks.fpdf_output
              Sample.state_after_AB "calendar_A" _ "A.ics" _
              eq_refl eq_refl Hrun (list_elem_of_here _ _))
    as (e & _ & _ & _ & He & _).
  eexists. split; [exact Hrun|]. exists e. exact He.
Defined.


(** A cached link that opens a bracket in its host: the download button
    makes the handler raise. *)
Example download_button_raises :
  ∃ st,
    (scrape_page Sample.strip Sample.urljoin initial_state
       (Fetched (PageRows
          [Sample.cells_with "E" "https://[drive.google.com/file/d/x"
             "03/01/2025 03:10:00" "Vigente"]))).1.1 = st
    ∧ is_Some (data_cache st !! "E")
    ∧ SampleCallbacks.button_callback st "download_E" = None.
Proof.
  eexists. split; [reflexivity|]. split.
  - eexists. vm_compute. reflexivity.
  - vm_compute. reflexivity.
Qed.

(** ** Notifications and their buttons *)

Section NotificationButtons.

Variable strip : string → string.
Variable urljoin : string → string → option string.
Variable dateparser_parse : string → option PyTime.parsed.

(** A call with a keyboard is the second call of the loop body. *)
Lemma notify_subscriber_keyboard send_ok (p message : string)
    (markup : list (list button)) (v u : Z) (text : string)
    (markup' : list (list button)) (ok : bool) :
  Send u text (Some markup') ok ∈ notify_subscriber send_ok p message markup v →
  text = message ∧ markup' = markup.
Proof.
  unfold notify_subscriber.
  destruct (send_ok p v Greeting), (send_ok p v Details); intros Hin;
    repeat (apply elem_of_cons in Hin as [Hin|Hin]; [by simplify_eq|]);
    by apply elem_of_nil in Hin.
Qed.

(** X20. Every button of a keyboard a cycle sends carries one of the three
    actions followed by the id of a publication that is new in that cycle,
    and the cache the cycle leaves has an entry for that id: right after
    the notification no button finds its publication missing. *)
Theorem notification_buttons_resolve now send_ok st resp
    (u : Z) (text : string) (markup : list (list button)) (ok : bool)
    (b : button) :
  Send u text (Some markup) ok
    ∈ (check_for_new_publications strip urljoin dateparser_parse now send_ok
         st resp).1.2 →
  b ∈ concat markup →
  ∃ pub_id e,
    pub_id ∈ active_ids strip urljoin resp ∖ previous_publications st
    ∧ btn_callback_data b
      ∈ ["download_" +:+ pub_id; "sharepdf_" +:+ pub_id;
         "calendar_" +:+ pub_id]
    ∧ data_cache
        (check_for_new_publications strip urljoin dateparser_parse now
           send_ok st resp).1.1 !! pub_id = Some e.
Proof.
  pose proof (check_for_new_publications_eq strip urljoin dateparser_parse
                now send_ok st resp) as Heq.
  simpl in Heq. rewrite Heq. cbn [fst snd]. clear Heq. intros Hin Hb.
  apply elem_of_app in Hin as [Hin|Hin].
  { apply list_elem_of_fmap in Hin as (l & Hl & _). discriminate. }
  eapply prefix_elem_of in Hin; [|apply notify_all_prefix].
  apply list_elem_of_bind in Hin as (p & Hin & Hp).
  apply elem_of_elements in Hp.
  pose proof Hp as [Hactive _]%elem_of_difference.
  destruct (pub_details_active strip urljoin resp p Hactive)
    as (r & Hdetails & Hr & Hid).
  unfold notify_publication in Hin. rewrite Hdetails in Hin.
  case_bool_decide; [|by apply elem_of_nil in Hin].
  destruct (format_single_publication dateparser_parse (now p) r)
    as [[message keyboard]|] eqn:Hfmt; [|by apply elem_of_nil in Hin].
  simpl in Hin. apply list_elem_of_bind in Hin as (v & Hin & _).
  apply notify_subscriber_keyboard in Hin as [_ ->].
  destruct (format_single_publication_keyboard dateparser_parse (now p) r
              message keyboard Hfmt) as (r0 & r6 & H0 & _ & ->).
  assert (r0 = p) as -> by (unfold row_id in Hid; by rewrite H0 in Hid).
  destruct (vigente_rows_scraped strip urljoin resp r Hr)
    as (data & Hdata & Hrdata).
  destruct (scrape_page_globals strip urljoin st resp) as (Hsame & _).
  rewrite <- Hsame in Hdata.
  assert (is_Some (data_cache (scrape_page strip urljoin st resp).1.1 !! p))
    as [e He].
  { apply elem_of_dom.
    rewrite (cache_dom_ids strip urljoin st resp data Hdata),
      elem_of_list_to_set.
    apply list_elem_of_fmap. by exists r. }
  exists p, e. split; [done|]. split.
  - simpl in Hb. rewrite app_nil_r in Hb.
    apply elem_of_app in Hb as [Hb|Hb].
    + case_bool_decide; [by apply elem_of_nil in Hb|].
      apply list_elem_of_singleton in Hb as ->. simpl. by left.
    + apply elem_of_cons in Hb as [->|Hb]; [simpl; right; by left|].
      apply list_elem_of_singleton in Hb as ->. simpl. right. right. by left.
  - destruct (decide (active_ids strip urljoin resp
                      ∖ previous_publications st = ∅)); exact He.
Qed.

End NotificationButtons.

Lemma notification_buttons_resolve_witness :
  ∃ u text markup ok b,
    Send u text (Some markup) ok
      ∈ (Sample.cycle Sample.send_all Sample.two_subscribers
           Sample.page_AB).1.2
    ∧ b ∈ concat markup
    ∧ ∃ pub_id e,
        pub_id ∈ active_ids Sample.strip Sample.urljoin Sample.page_AB
                 ∖ previous_publications Sample.two_subscribers
        ∧ btn_callback_data b
          ∈ ["download_" +:+ pub_id; "sharepdf_" +:+ pub_id;
             "calendar_" +:+ pub_id]
        ∧ data_cache
            (Sample.cycle Sample.send_all Sample.two_subscribers
               Sample.page_AB).1.1 !! pub_id = Some e.
Proof.
  assert (∃ u text markup ok b,
            Send u text (Some markup) ok
              ∈ (Sample.cycle Sample.send_all Sample.two_subscribers
                   Sample.page_AB).1.2
            ∧ b ∈ concat markup)
    as (u & text & markup & ok & b & Hin & Hb).
  { eexists _, _, _, _, _. split.
    - vm_compute. right. left.
    - left. }
  exists u, text, markup, ok, b.
  split; [exact Hin|]. split; [exact Hb|].
  exact (notification_buttons_resolve Sample.strip Sample.urljoin
           Sample.dateparser_parse Sample.now Sample.send_all
           Sample.two_subscribers Sample.page_AB u text markup ok b
           Hin Hb).
Defined.

(** ** Drive links, further *)

Section DriveMore.

Variable urlparse : string → option ParseResult.
Variable parse_qs : string → gmap string (list string).

(** X21. With a [parse_qs] that lists at least one value per name, as the
    library does, [convert_drive_url] raises exactly on the texts
    [urlparse] raises on: a path that contains [/file/d/] always has a
    fourth piece.  What it returns is the URL it was given or the download
    URL of a non-empty id, and always the URL it was given when the host
    does not contain [drive.google.com]. *)
Theorem convert_drive_url_result (u : string) :
  (∀ q values, parse_qs q !! "id" = Some values → values ≠ []) →
  (convert_drive_url urlparse parse_qs u = None ↔ urlparse u = None)
  ∧ (∀ v,
       convert_drive_url urlparse parse_qs u = Some v →
       v = u ∨ ∃ fid, fid ≠ "" ∧ v = download_url fid)
  ∧ (∀ parsed_url,
       urlparse u = Some parsed_url →
       PyStr.str_in "drive.google.com" (netloc parsed_url) = false →
       convert_drive_url urlparse parse_qs u = Some u).
Proof.
  intros Hqs. split_and!.
  - split; [|apply convert_drive_url_unparsed].
    intros Hnone. destruct (urlparse u) as [parsed_url|] eqn:Hparse; [|done].
    destruct (convert_drive_url_parsed urlparse parse_qs u parsed_url Hqs
                Hparse) as [v Hv].
    congruence.
  - intros v Hv.
    by destruct (convert_drive_url_shape urlparse parse_qs u v Hv).
  - intros parsed_url Hparse Hhost.
    by apply (convert_drive_url_other_host urlparse parse_qs u parsed_url).
Qed.

(** X22. The two kinds of link the function is written for: on a drive
    host, a path [/file/d/<id>] or [/file/d/<id>/...] gives the download
    URL of that id, and so does an [/open] path whose query has that id
    as the first value of [id]. *)
Theorem convert_drive_url_link_kinds (u fid : string)
    (parsed_url : ParseResult) :
  urlparse u = Some parsed_url →
  PyStr.str_in "drive.google.com" (netloc parsed_url) = true →
  fid ≠ "" →
  (PyStr.count "/" fid = 0%nat
   ∧ ∃ tail, path parsed_url = "/file/d/" +:+ fid +:+ tail
             ∧ (tail = "" ∨ ∃ rest, tail = String "/" rest))
  ∨ (PyStr.str_in "/file/d/" (path parsed_url) = false
     ∧ PyStr.str_in "/open" (path parsed_url) = true
     ∧ ∃ more, parse_qs (query parsed_url) !! "id" = Some (fid :: more)) →
  convert_drive_url urlparse parse_qs u = Some (download_url fid).
Proof.
  intros Hparse Hhost Hne
    [(Hfid & tail & Hpath & Htail)|(Hfile & Hopen & more & Hid)].
  - by apply (convert_drive_url_file_first urlparse parse_qs u fid tail
                parsed_url).
  - by apply (convert_drive_url_open urlparse parse_qs u fid more
                parsed_url).
Qed.

End DriveMore.

Lemma sample_parse_qs_values (q : string) (values : list string) :
  SampleCallbacks.parse_qs q !! "id" = Some values → values ≠ [].
Proof.
  unfold SampleCallbacks.parse_qs.
  case_bool_decide; [|by rewrite lookup_empty].
  rewrite lookup_singleton_eq. by intros [= <-].
Defined.

Lemma convert_drive_url_result_witness :
  (∀ q values,
     SampleCallbacks.parse_qs q !! "id" = Some values → values ≠ [])
  ∧ SampleCallbacks.parse_qs "id=XYZ123" !! "id" = Some ["XYZ123"]
  ∧ convert_drive_url SampleCallbacks.urlparse SampleCallbacks.parse_qs
      "https://drive.google.com/open?id=XYZ123"
    = Some "https://drive.google.com/uc?export=download&id=XYZ123"
  ∧ ("https://drive.google.com/uc?export=download&id=XYZ123"
     = "https://drive.google.com/open?id=XYZ123"
     ∨ ∃ fid, fid ≠ ""
              ∧ "https://drive.google.com/uc?export=download&id=XYZ123"
                = download_url fid).
Proof.
  assert (convert_drive_url SampleCallbacks.urlparse SampleCallbacks.parse_qs
            "https://drive.google.com/open?id=XYZ123"
          = Some "https://drive.google.com/uc?export=download&id=XYZ123")
    as Hrun by (vm_compute; reflexivity).
  split; [exact sample_parse_qs_values|].
  split; [vm_compute; reflexivity|]. split; [exact Hrun|].
  exact (proj1 (proj2 (convert_drive_url_result SampleCallbacks.urlparse
                         SampleCallbacks.parse_qs
                         "https://drive.google.com/open?id=XYZ123"
                         sample_parse_qs_values))
           _ Hrun).
Defined.

Lemma convert_drive_url_link_kinds_witness :
  let u := "https://drive.google.com/file/d/XYZ123/view" in
  let parsed_url :=
    mk_ParseResult "https" "drive.google.com" "/file/d/XYZ123/view"
                   "" "" "" in
  SampleCallbacks.urlparse u = Some parsed_url
  ∧ PyStr.str_in "drive.google.com" (netloc parsed_url) = true
  ∧ "XYZ123" ≠ ""
  ∧ path parsed_url = "/file/d/" +:+ "XYZ123" +:+ "/view"
  ∧ convert_drive_url SampleCallbacks.urlparse SampleCallbacks.parse_qs u
    = Some (download_url "XYZ123").
Proof.
  cbv zeta.
  assert (SampleCallbacks.urlparse
            "https://drive.google.com/file/d/XYZ123/view"
          = Some (mk_ParseResult "https" "drive.google.com"
                    "/file/d/XYZ123/view" "" "" "")) as Hparse
    by (vm_compute; reflexivity).
  assert ("XYZ123" ≠ "") as Hne by discriminate.
  split; [exact Hparse|]. split; [reflexivity|]. split; [exact Hne|].
  split; [reflexivity|].
  apply (convert_drive_url_link_kinds SampleCallbacks.urlparse
           SampleCallbacks.parse_qs
           "https://drive.google.com/file/d/XYZ123/view" "XYZ123" _ Hparse);
    [reflexivity | exact Hne |].
  left. split; [reflexivity|]. exists "/view". split; [reflexivity|].
  right. by exists "view".
Defined.

(** The download URL of any id, parsed: the id sits in the query. *)
Lemma urlparse_download_url netloc_valid (fid : string) :
  ∃ parsed_url,
    UrlModel.urlparse netloc_valid (download_url fid) = Some parsed_url
    ∧ netloc parsed_url = "drive.google.com"
    ∧ path parsed_url = "/uc".
Proof. eexists. split; [vm_compute; reflexivity|]. split; reflexivity. Qed.

(** X23. Converting twice is converting once: on what [convert_drive_url]
    returns, it returns its argument. *)
Theorem convert_drive_url_idempotent netloc_valid parse_qs (u v : string) :
  convert_drive_url (UrlModel.urlparse netloc_valid) parse_qs u = Some v →
  convert_drive_url (UrlModel.urlparse netloc_valid) parse_qs v = Some v.
Proof.
  intros Hv.
  destruct (convert_drive_url_shape (UrlModel.urlparse netloc_valid)
              parse_qs u v Hv) as [_ [->|(fid & _ & ->)]]; [exact Hv|].
  destruct (urlparse_download_url netloc_valid fid)
    as (parsed_url & Hparse & _ & Hpath).
  apply (convert_drive_url_other_path _ _ _ parsed_url Hparse);
    by rewrite Hpath.
Qed.

Lemma convert_drive_url_idempotent_witness :
  convert_drive_url SampleCallbacks.urlparse SampleCallbacks.parse_qs
    "https://drive.google.com/file/d/XYZ123/view"
  = Some "https://drive.google.com/uc?export=download&id=XYZ123"
  ∧ convert_drive_url SampleCallbacks.urlparse SampleCallbacks.parse_qs
      "https://drive.google.com/uc?export=download&id=XYZ123"
    = Some "https://drive.google.com/uc?export=download&id=XYZ123".
Proof.
  assert (convert_drive_url SampleCallbacks.urlparse SampleCallbacks.parse_qs
            "https://drive.google.com/file/d/XYZ123/view"
          = Some "https://drive.google.com/uc?export=download&id=XYZ123")
    as Hrun by (vm_compute; reflexivity).
  split; [exact Hrun|].
  exact (convert_drive_url_idempotent (λ _, false) SampleCallbacks.parse_qs
           "https://drive.google.com/file/d/XYZ123/view"
           "https://drive.google.com/uc?export=download&id=XYZ123" Hrun).
Defined.
